(** * AgentSimulator: the agent-identity authentication and dispatch client

    A shallow embedding of [src/app/components/AgentSimulator.tsx]: the
    credential resolver, the token authenticator, the gateway dispatcher and
    the scenario runner, together with the result history they feed and the
    status badge that classifies a recorded status code.

    The component's React state is an explicit record threaded through a
    small state-and-exception monad; the browser (the two [fetch] targets,
    the clock, the wording of engine-raised errors) is a [World] value the
    runner is given per invocation.  Every [fetch], [alert], [onOpenConfig]
    and [console.error] is appended to a trace kept next to the state, so
    that statements about what reached the network can be made. *)

From stdpp Require Import gmap strings list.
From Stdlib Require Import ZArith Lia.

Set Warnings "-register-all".

(** ** JavaScript values

    [response.json()] yields an arbitrary JSON value and the code inspects it
    with property reads, truthiness tests and string conversions, so the
    value universe is modelled with those three operations.  The client
    never computes with a number found in a body, it only tests and prints
    it: a number is carried as [repr], the text [Number.prototype.toString]
    gives for it (["42"], ["-3.5"], ["1e+21"]).  The objects are plain data
    (parsed JSON, object literals): no property of theirs is a function. *)

Inductive value : Type :=
| VUndefined
| VNull
| VBool (b : bool)
| VNum (repr : string)
| VStr (s : string)
| VArr (items : list value)
| VObj (fields : list (string * value)).

(** What is thrown: an [Error] instance carrying its [message], or some
    other value for which [error instanceof Error] is false. *)
Inductive thrown : Type :=
| ErrorObj (message : string)
| NotAnError.

(** ToBoolean. *)
Definition truthy (v : value) : bool :=
  match v with
  | VUndefined | VNull => false
  | VBool b => b
  | VNum repr => negb (String.eqb repr "0") && negb (String.eqb repr "NaN")
  | VStr s => negb (String.eqb s "")
  | VArr _ | VObj _ => true
  end.

(** Whether [k] is an own property of an object. *)
Definition hasOwn (k : string) (fields : list (string * value)) : bool :=
  existsb (fun p => String.eqb k (fst p)) fields.

(** ToString, as applied by a template literal and by [new Error(x)];
    [None] when the conversion throws a [TypeError].  An object is
    converted by calling its [toString]: the inherited one answers
    ["[object Object]"]; an own property of that name, being data, cannot
    be called, and neither [valueOf] yields a primitive, so the conversion
    throws.  An array joins the conversions of its elements, [null] and
    [undefined] counting as empty. *)
Fixpoint toString (v : value) : option string :=
  match v with
  | VUndefined => Some "undefined"
  | VNull => Some "null"
  | VBool true => Some "true"
  | VBool false => Some "false"
  | VNum repr => Some repr
  | VStr s => Some s
  | VArr items =>
      (fix join (l : list value) : option string :=
         match l with
         | [] => Some ""
         | x :: rest =>
             match
               match x with
               | VUndefined | VNull => Some ""
               | _ => toString x
               end
             with
             | None => None
             | Some here =>
                 match rest with
                 | [] => Some here
                 | _ :: _ =>
                     match join rest with
                     | None => None
                     | Some others => Some (here +:+ "," +:+ others)
                     end
                 end
             end
         end) items
  | VObj fields =>
      if hasOwn "toString" fields then None else Some "[object Object]"
  end.

(** Own-property lookup in an object literal or parsed JSON object. *)
Fixpoint assoc (k : string) (fields : list (string * value)) : value :=
  match fields with
  | [] => VUndefined
  | (k', v) :: rest => if String.eqb k k' then v else assoc k rest
  end.

(** [a || b] *)
Definition js_or (a b : value) : value := if truthy a then a else b.

(** ** Configuration

    Modelled from the spec: the [AppConfig] type is declared in
    [./ConfigurationModal], which is not part of the sources at hand; the
    fields are the ones this component reads, each a string, "missing"
    being the empty (falsy) string. *)

Record AgentCredentials : Type := mkCredentials {
  agentId : string;
  agentSecret : string
}.

Record AppConfig : Type := mkConfig {
  orgName : string;
  clientId : string;
  targetUrl : string;
  coordinatorAgent : AgentCredentials;
  expertAgent : AgentCredentials
}.

Definition nonempty (s : string) : bool := truthy (VStr s).

Definition isConfigValid (config : AppConfig) : bool :=
  nonempty (orgName config) && nonempty (clientId config) &&
  nonempty (targetUrl config) &&
  nonempty (agentId (coordinatorAgent config)) &&
  nonempty (agentSecret (coordinatorAgent config)) &&
  nonempty (agentId (expertAgent config)) &&
  nonempty (agentSecret (expertAgent config)).

(** ** Credential resolver *)

Definition getAgentCredentials (config : AppConfig) (agentType : string)
  : AgentCredentials :=
  if String.eqb agentType "Support-Coordinator" then
    {| agentId := agentId (coordinatorAgent config);
       agentSecret := agentSecret (coordinatorAgent config) |}
  else
    {| agentId := agentId (expertAgent config);
       agentSecret := agentSecret (expertAgent config) |}.

(** The object returned by [getWrongAgentCredentials]. *)
Record WrongAgentCredentials : Type := mkWrongAgentCredentials {
  credentials : AgentCredentials;
  claimedAgentType : string
}.

Definition getWrongAgentCredentials (config : AppConfig)
  : WrongAgentCredentials :=
  {| credentials :=
       {| agentId := agentId (coordinatorAgent config);
          agentSecret := agentSecret (coordinatorAgent config) |};
     claimedAgentType := "Technical-Specialist" |}.

(** ** The browser, as seen by the component *)

(** The second argument of [fetch].  [body] is the object handed to
    [JSON.stringify]; [headers] is the [Record<string, string>] literal. *)
Record RequestInit : Type := mkInit {
  method : string;
  headers : gmap string string;
  body : value
}.

(** How a statement completes: normally with a value, or by throwing. *)
Inductive completion (A : Type) : Type :=
| Normal (a : A)
| Throw (e : thrown).
Arguments Normal {A} a.
Arguments Throw {A} e.

(** A settled [Response]: its status and what [response.json()] settles
    to (a rejection when the body is absent or is not JSON). *)
Record Response : Type := mkResponse {
  status : Z;
  json : completion value
}.

(** [response.ok]: the status is in the range 200-299. *)
Definition ok (r : Response) : bool :=
  (200 <=? status r)%Z && (status r <=? 299)%Z.

Record World : Type := mkWorld {
  (** what [await fetch(url, init)] settles to *)
  fetch : string -> RequestInit -> completion Response;
  (** [new Date()] *)
  now : Z;
  (** the message of the [TypeError] raised on reading a property of
      [null] or [undefined]; its wording depends on the engine *)
  typeErrorMessage : value -> string -> string;
  (** the message of the [TypeError] raised when a value cannot be
      converted to a string; engine-dependent as well *)
  conversionErrorMessage : value -> string
}.

Inductive Event : Type :=
| EvFetch (url : string) (init : RequestInit)
| EvAlert (msg : string)
| EvOpenConfig
| EvConsoleError (label : string) (e : thrown).

(** ** Component state *)

(** ['correct-agent' | 'wrong-agent' | 'no-auth'] *)
Inductive SimulationCase : Type := CorrectAgent | WrongAgent | NoAuth.

Record SimulationResult : Type := mkResult {
  caseType : SimulationCase;
  agentType : string;
  authUsed : string;
  tokenReceived : value;
  response : value;
  statusCode : Z;
  timestamp : Z
}.

Record State : Type := mkState {
  selectedCase : SimulationCase;
  selectedAgent : string;
  isLoading : bool;
  results : list SimulationResult;
  expandedResult : option nat;
  (** everything the component did to the outside, oldest first *)
  trace : list Event
}.

Definition initialState : State :=
  {| selectedCase := CorrectAgent;
     selectedAgent := "Support-Coordinator";
     isLoading := false;
     results := [];
     expandedResult := None;
     trace := [] |}.

(** ** A state-and-exception monad for the handlers *)

Module Js.

Definition M (A : Type) : Type := State -> completion A * State.

Definition ret {A} (a : A) : M A := fun st => (Normal a, st).

Definition throw {A} (e : thrown) : M A := fun st => (Throw e, st).

Definition bind {A B} (m : M A) (k : A -> M B) : M B :=
  fun st =>
    match m st with
    | (Normal a, st') => k a st'
    | (Throw e, st') => (Throw e, st')
    end.

(** [try { body } catch (error) { handler }] *)
Definition try_catch {A} (body : M A) (handler : thrown -> M A) : M A :=
  fun st =>
    match body st with
    | (Normal a, st') => (Normal a, st')
    | (Throw e, st') => handler e st'
    end.

(** [try { body } finally { fin }] *)
Definition try_finally {A} (body : M A) (fin : M unit) : M A :=
  fun st =>
    match body st with
    | (c, st') =>
        match fin st' with
        | (Normal _, st'') => (c, st'')
        | (Throw e, st'') => (Throw e, st'')
        end
    end.

(** Settle an already computed completion (an [await] of a promise). *)
Definition await {A} (c : completion A) : M A := fun st => (c, st).

Definition emit (ev : Event) : M unit :=
  fun st =>
    (Normal tt,
     {| selectedCase := selectedCase st; selectedAgent := selectedAgent st;
        isLoading := isLoading st; results := results st;
        expandedResult := expandedResult st;
        trace := trace st ++ [ev] |}).

End Js.

Notation "x <~ m ;; k" := (Js.bind m (fun x => k))
  (at level 100, m at next level, right associativity).
Notation "m ;;; k" := (Js.bind m (fun _ => k))
  (at level 100, right associativity).

(** The state setters returned by [useState]. *)
Definition setIsLoading (b : bool) : Js.M unit :=
  fun st =>
    (Normal tt,
     {| selectedCase := selectedCase st; selectedAgent := selectedAgent st;
        isLoading := b; results := results st;
        expandedResult := expandedResult st; trace := trace st |}).

Definition setResults (f : list SimulationResult -> list SimulationResult)
  : Js.M unit :=
  fun st =>
    (Normal tt,
     {| selectedCase := selectedCase st; selectedAgent := selectedAgent st;
        isLoading := isLoading st; results := f (results st);
        expandedResult := expandedResult st; trace := trace st |}).

Definition setExpandedResult (i : option nat) : Js.M unit :=
  fun st =>
    (Normal tt,
     {| selectedCase := selectedCase st; selectedAgent := selectedAgent st;
        isLoading := isLoading st; results := results st;
        expandedResult := i; trace := trace st |}).

Definition setSelectedCase (c : SimulationCase) : Js.M unit :=
  fun st =>
    (Normal tt,
     {| selectedCase := c; selectedAgent := selectedAgent st;
        isLoading := isLoading st; results := results st;
        expandedResult := expandedResult st; trace := trace st |}).

Definition setSelectedAgent (a : string) : Js.M unit :=
  fun st =>
    (Normal tt,
     {| selectedCase := selectedCase st; selectedAgent := a;
        isLoading := isLoading st; results := results st;
        expandedResult := expandedResult st; trace := trace st |}).

(** [await fetch(url, init)]: the call is recorded, then settles. *)
Definition doFetch (w : World) (url : string) (init : RequestInit)
  : Js.M Response :=
  Js.emit (EvFetch url init) ;;; Js.await (fetch w url init).

(** [v.k] for the two keys the component reads, [error] and
    [access_token]: a [TypeError] on [null] and [undefined], the own
    property on an object, [undefined] on everything else (neither key is
    a built-in property of a primitive or of an array). *)
Definition getProp (w : World) (v : value) (k : string) : Js.M value :=
  match v with
  | VUndefined | VNull => Js.throw (ErrorObj (typeErrorMessage w v k))
  | VObj fields => Js.ret (assoc k fields)
  | _ => Js.ret VUndefined
  end.

(** A string conversion in the running program: the string, or the
    engine's [TypeError]. *)
Definition convert (w : World) (v : value) : completion string :=
  match toString v with
  | Some s => Normal s
  | None => Throw (ErrorObj (conversionErrorMessage w v))
  end.

(** [new Error(x)]: the error object, unless converting [x] to the
    message throws. *)
Definition newError (w : World) (x : value) : completion thrown :=
  match x with
  | VUndefined => Normal (ErrorObj "")
  | _ =>
      match convert w x with
      | Normal message => Normal (ErrorObj message)
      | Throw e => Throw e
      end
  end.

(** ** Token authenticator *)

Definition tokenRequest (config : AppConfig) (agentId agentSecret : string)
  : RequestInit :=
  {| method := "POST";
     headers := {[ "Content-Type" := "application/json" ]};
     body := VObj [ ("orgName", VStr (orgName config));
                    ("clientId", VStr (clientId config));
                    ("agentId", VStr agentId);
                    ("agentSecret", VStr agentSecret) ] |}.

Definition authenticateAgent (w : World) (config : AppConfig)
    (agentId agentSecret : string) : Js.M value :=
  Js.try_catch
    (response <~ doFetch w "/api/auth/agent-token"
                   (tokenRequest config agentId agentSecret) ;;
     (if negb (ok response) then
        error <~ Js.await (json response) ;;
        reason <~ getProp w error "error" ;;
        failure <~ Js.await
                     (newError w
                        (js_or reason (VStr "Failed to authenticate"))) ;;
        Js.throw failure
      else Js.ret tt) ;;;
     data <~ Js.await (json response) ;;
     getProp w data "access_token")
    (fun error =>
       Js.emit (EvConsoleError "Authentication error:" error) ;;;
       Js.throw error).

(** ** Gateway dispatcher *)

(** The [headers] object when the request is issued: the literal, with
    [Authorization] assigned under [if (token)].  The template literal
    converts the token, and throws when it cannot. *)
Definition chatHeaders (w : World) (config : AppConfig) (token : value)
    (agentType : string) : completion (gmap string string) :=
  let headers : gmap string string :=
    {[ "Content-Type" := "application/json";
       "x-agent-type" := agentType;
       "x-target-url" := targetUrl config ]} in
  if truthy token then
    match convert w token with
    | Normal text => Normal (<[ "Authorization" := "Bearer " +:+ text ]> headers)
    | Throw e => Throw e
    end
  else Normal headers.

Definition chatInit (headers : gmap string string) (agentType : string)
  : RequestInit :=
  {| method := "POST";
     headers := headers;
     body :=
       VObj [ ("messages",
               VArr [ VObj [ ("role", VStr "user");
                             ("content",
                              VStr ("Hello, I am " +:+ agentType +:+
                                    ". This is a test message.")) ] ]) ] |}.

Definition sendChatRequest (w : World) (config : AppConfig)
    (token : value) (agentType : string) : Js.M (value * Z) :=
  headers <~ Js.await (chatHeaders w config token agentType) ;;
  response <~ doFetch w "/api/chat" (chatInit headers agentType) ;;
  data <~ Js.await (json response) ;;
  Js.ret (data, status response).

(** ** Scenario runner *)

(** The body of the [switch]: one pipeline per case, ending in the
    record that the success path stores.  [SimulationCase] being closed,
    the [default] branch has no counterpart. *)
Definition runCase (w : World) (config : AppConfig)
    (selectedCase : SimulationCase) (selectedAgent : string)
  : Js.M SimulationResult :=
  match selectedCase with
  | CorrectAgent =>
      let credentials := getAgentCredentials config selectedAgent in
      token <~ authenticateAgent w config
                 (agentId credentials) (agentSecret credentials) ;;
      reply <~ sendChatRequest w config token selectedAgent ;;
      Js.ret {| caseType := CorrectAgent;
                agentType := selectedAgent;
                authUsed := selectedAgent +:+ " credentials";
                tokenReceived := token;
                response := fst reply;
                statusCode := snd reply;
                timestamp := now w |}
  | WrongAgent =>
      let wrong := getWrongAgentCredentials config in
      token <~ authenticateAgent w config
                 (agentId (credentials wrong))
                 (agentSecret (credentials wrong)) ;;
      reply <~ sendChatRequest w config token (claimedAgentType wrong) ;;
      Js.ret {| caseType := WrongAgent;
                agentType := "Technical-Specialist";
                authUsed := "Support-Coordinator credentials";
                tokenReceived := token;
                response := fst reply;
                statusCode := snd reply;
                timestamp := now w |}
  | NoAuth =>
      reply <~ sendChatRequest w config VNull selectedAgent ;;
      Js.ret {| caseType := NoAuth;
                agentType := selectedAgent;
                authUsed := "No authentication";
                tokenReceived := VNull;
                response := fst reply;
                statusCode := snd reply;
                timestamp := now w |}
  end.

(** [error instanceof Error ? error.message : 'Unknown error'] *)
Definition errorText (error : thrown) : string :=
  match error with
  | ErrorObj message => message
  | NotAnError => "Unknown error"
  end.

(** The record built in the [catch] block. *)
Definition errorResult (w : World) (selectedCase : SimulationCase)
    (selectedAgent : string) (error : thrown) : SimulationResult :=
  {| caseType := selectedCase;
     agentType := selectedAgent;
     authUsed := match selectedCase with
                 | NoAuth => "No authentication"
                 | _ => selectedAgent +:+ " credentials"
                 end;
     tokenReceived := VNull;
     response := VObj [ ("error", VStr (errorText error)) ];
     statusCode := 500;
     timestamp := now w |}.

(** [runSimulation] reads [selectedCase] and [selectedAgent] from the
    render it was created in, hence from the state it is started in. *)
Definition runSimulation (w : World) (config : AppConfig) : Js.M unit :=
  fun st0 =>
    let selectedCase := selectedCase st0 in
    let selectedAgent := selectedAgent st0 in
    (if negb (isConfigValid config) then
       Js.emit (EvAlert "Please configure all settings first") ;;;
       Js.emit EvOpenConfig ;;;
       Js.ret tt
     else
       setIsLoading true ;;;
       Js.try_finally
         (Js.try_catch
            (result <~ runCase w config selectedCase selectedAgent ;;
             setResults (fun prev => result :: prev) ;;;
             setExpandedResult (Some 0%nat))
            (fun error =>
               let errorResult :=
                 errorResult w selectedCase selectedAgent error in
               setResults (fun prev => errorResult :: prev) ;;;
               setExpandedResult (Some 0%nat)))
         (setIsLoading false)) st0.

Definition clearResults : Js.M unit :=
  setResults (fun _ => []) ;;; setExpandedResult None.

(** The [onClick] of a result header. *)
Definition toggleExpanded (index : nat) : Js.M unit :=
  fun st =>
    setExpandedResult
      (if bool_decide (expandedResult st = Some index) then None
       else Some index) st.

(** ** Display helpers *)

Definition getCaseDescription (caseType : SimulationCase) : string :=
  match caseType with
  | CorrectAgent => "Correct Agent Authentication"
  | WrongAgent => "Wrong Agent (Impersonation Attempt)"
  | NoAuth => "No Authentication"
  end.

(** The [<span>] returned by [getStatusBadge]: its class list and its
    text, the code followed by a label. *)
Record Badge : Type := mkBadge {
  className : string;
  code : Z;
  label : string
}.

Definition getStatusBadge (statusCode : Z) : Badge :=
  if (200 <=? statusCode)%Z && (statusCode <? 300)%Z then
    {| className := "px-2 py-1 text-xs font-medium rounded-full bg-green-100 text-green-800 dark:bg-green-900/30 dark:text-green-400";
       code := statusCode;
       label := "Success" |}
  else if (400 <=? statusCode)%Z && (statusCode <? 500)%Z then
    {| className := "px-2 py-1 text-xs font-medium rounded-full bg-yellow-100 text-yellow-800 dark:bg-yellow-900/30 dark:text-yellow-400";
       code := statusCode;
       label := "Client Error" |}
  else
    {| className := "px-2 py-1 text-xs font-medium rounded-full bg-red-100 text-red-800 dark:bg-red-900/30 dark:text-red-400";
       code := statusCode;
       label := "Error" |}.

(** ** The handlers the rendered component exposes *)

Inductive Action : Type :=
| SelectCase (c : SimulationCase)
| SelectAgent (a : string)
| Run (w : World) (config : AppConfig)
| Clear
| Toggle (index : nat).

Definition handle (a : Action) : Js.M unit :=
  match a with
  | SelectCase c => setSelectedCase c
  | SelectAgent s => setSelectedAgent s
  | Run w config => runSimulation w config
  | Clear => clearResults
  | Toggle i => toggleExpanded i
  end.

(** The state after a handler has run to completion. *)
Definition after {A} (m : Js.M A) (st : State) : State := snd (m st).

Fixpoint afterAll (acts : list Action) (st : State) : State :=
  match acts with
  | [] => st
  | a :: rest => afterAll rest (after (handle a) st)
  end.

(** The [fetch] calls of a trace, in order. *)
Definition fetches (tr : list Event) : list (string * RequestInit) :=
  omap (fun ev => match ev with
                  | EvFetch url init => Some (url, init)
                  | _ => None
                  end) tr.

(** ** Notions used in the statements

    None of these is part of the component: they name what an operation
    of the component completes with and what it adds to the trace, so that
    the statements below can speak about it. *)

(** [extend st tr]: the state [st] with [tr] added at the end of its
    trace, and nothing else changed. *)
Definition extend (st : State) (tr : list Event) : State :=
  {| selectedCase := selectedCase st; selectedAgent := selectedAgent st;
     isLoading := isLoading st; results := results st;
     expandedResult := expandedResult st; trace := trace st ++ tr |}.

(** [emits m c tr]: from every state, [m] completes with [c], adds [tr]
    to the trace and changes nothing else. *)
Definition emits {A} (m : Js.M A) (c : completion A) (tr : list Event)
  : Prop :=
  forall st, m st = (c, extend st tr).

(** The two endpoints the component talks to. *)
Definition tokenUrl : string := "/api/auth/agent-token".

Definition chatUrl : string := "/api/chat".

(** The request the dispatcher issues, when it gets as far as issuing
    one. *)
Definition chatRequest (w : World) (config : AppConfig) (token : value)
    (agentType : string) : completion RequestInit :=
  match chatHeaders w config token agentType with
  | Normal headers => Normal (chatInit headers agentType)
  | Throw e => Throw e
  end.

(** What the dispatcher settles to: the fault of building the request,
    or what is read off the gateway's answer. *)
Definition chatOutcome (w : World) (config : AppConfig) (token : value)
    (agentType : string) : completion (value * Z) :=
  match chatRequest w config token agentType with
  | Throw e => Throw e
  | Normal init =>
      match fetch w "/api/chat" init with
      | Normal r =>
          match json r with
          | Normal data => Normal (data, status r)
          | Throw e => Throw e
          end
      | Throw e => Throw e
      end
  end.

(** What the dispatcher adds to the trace. *)
Definition chatTrace (w : World) (config : AppConfig) (token : value)
    (agentType : string) : list Event :=
  match chatRequest w config token agentType with
  | Normal init => [EvFetch chatUrl init]
  | Throw _ => []
  end.

(** What the authenticator settles to. *)
Definition authResult (w : World) (config : AppConfig)
    (agentId agentSecret : string) : completion value :=
  fst (authenticateAgent w config agentId agentSecret initialState).

(** What [throw new Error(x)] throws: the error built, or the fault
    of building it. *)
Definition raised (c : completion thrown) : thrown :=
  match c with
  | Normal failure => failure
  | Throw e => e
  end.

(** What the authenticator's [catch] block logs. *)
Definition consoleTail {A} (c : completion A) : list Event :=
  match c with
  | Normal _ => []
  | Throw e => [EvConsoleError "Authentication error:" e]
  end.

Ltac run_monad :=
  cbv [Js.try_catch Js.try_finally Js.bind Js.ret Js.throw Js.await Js.emit
       doFetch getProp setIsLoading setResults setExpandedResult
       setSelectedCase setSelectedAgent extend after]; cbn.

(** The authenticated pipeline shared by the first two cases:
    authenticate, dispatch with the token, build the record. *)
Definition pipelineResult {R} (w : World) (config : AppConfig)
    (agentId agentSecret claimed : string) (mk : value -> value * Z -> R)
  : completion R :=
  match authResult w config agentId agentSecret with
  | Throw e => Throw e
  | Normal token =>
      match chatOutcome w config token claimed with
      | Throw e => Throw e
      | Normal reply => Normal (mk token reply)
      end
  end.

Definition pipelineTrace (w : World) (config : AppConfig)
    (agentId agentSecret claimed : string) : list Event :=
  EvFetch tokenUrl (tokenRequest config agentId agentSecret)
    :: consoleTail (authResult w config agentId agentSecret)
    ++ match authResult w config agentId agentSecret with
       | Normal token => chatTrace w config token claimed
       | Throw _ => []
       end.

(** What the [switch] of the runner completes with, and the events it
    adds. *)
Definition caseResult (w : World) (config : AppConfig)
    (c : SimulationCase) (agent : string) : completion SimulationResult :=
  fst (runCase w config c agent initialState).

Definition caseTrace (w : World) (config : AppConfig)
    (c : SimulationCase) (agent : string) : list Event :=
  trace (snd (runCase w config c agent initialState)).

(** The record an invocation stores: the one of the success path, or
    the one synthesized in the [catch] block. *)
Definition recorded (w : World) (config : AppConfig) (st : State)
  : SimulationResult :=
  match caseResult w config (selectedCase st) (selectedAgent st) with
  | Normal result => result
  | Throw error => errorResult w (selectedCase st) (selectedAgent st) error
  end.

(** *** Example data: the configuration of the documented scenario and
    a few browsers *)

Definition exampleConfig : AppConfig :=
  {| orgName := "acme";
     clientId := "c1";
     targetUrl := "https://gw.example/chat";
     coordinatorAgent := {| agentId := "coord-1"; agentSecret := "s1" |};
     expertAgent := {| agentId := "spec-1"; agentSecret := "s2" |} |}.

(** The target URL has not been filled in. *)
Definition noTargetConfig : AppConfig :=
  {| orgName := "acme";
     clientId := "c1";
     targetUrl := "";
     coordinatorAgent := {| agentId := "coord-1"; agentSecret := "s1" |};
     expertAgent := {| agentId := "spec-1"; agentSecret := "s2" |} |}.

(** The wording of one engine for a property read on [null]. *)
Definition engineMessage (v : value) (k : string) : string :=
  "Cannot read properties of "
  +:+ match v with VUndefined => "undefined" | _ => "null" end
  +:+ " (reading '" +:+ k +:+ "')".

(** A browser given the answer of each of the two endpoints. *)
Definition browser (tokenAnswer chatAnswer : completion Response) : World :=
  {| fetch := fun url _ =>
       if String.eqb url "/api/auth/agent-token" then tokenAnswer
       else chatAnswer;
     now := 1700000000000;
     typeErrorMessage := engineMessage;
     conversionErrorMessage := fun _ =>
       "Cannot convert object to primitive value" |}.

(** A rejected [fetch], and an answer with a JSON body. *)
Definition unreachable : completion Response :=
  Throw (ErrorObj "Failed to fetch").

Definition answers (code : Z) (v : value) : completion Response :=
  Normal {| status := code; json := Normal v |}.

(** No endpoint can be reached. *)
Definition offline : World := browser unreachable unreachable.

(** The token endpoint issues ["T"]; the gateway accepts. *)
Definition grantingWorld : World :=
  browser (answers 200 (VObj [("access_token", VStr "T")]))
          (answers 200 (VObj [("reply", VStr "hello")])).

(** The token endpoint refuses with an empty body. *)
Definition emptyRefusal : World :=
  browser (Normal {| status := 401;
                     json := Throw (ErrorObj "Unexpected end of JSON input") |})
          (answers 200 (VObj [])).

(** The token endpoint refuses and says why. *)
Definition explainedRefusal : World :=
  browser (answers 401 (VObj [("error", VStr "invalid_client")]))
          (answers 200 (VObj [])).

(** The token endpoint refuses with an object that has no [error]. *)
Definition bareRefusal : World :=
  browser (answers 401 (VObj [])) (answers 200 (VObj [])).

(** The token endpoint succeeds but hands out an empty token. *)
Definition emptyTokenWorld : World :=
  browser (answers 200 (VObj [("access_token", VStr "")]))
          (answers 401 (VObj [("error", VStr "missing token")])).

(** The token endpoint issues ["T"]; the gateway refuses. *)
Definition refusingGateway : World :=
  browser (answers 200 (VObj [("access_token", VStr "T")]))
          (answers 403 (VObj [("error", VStr "agent mismatch")])).

(** Fresh components with the second and the third case selected. *)
Definition impersonating (agent : string) : State :=
  {| selectedCase := WrongAgent; selectedAgent := agent;
     isLoading := false; results := []; expandedResult := None;
     trace := [] |}.

Definition unauthenticated (agent : string) : State :=
  {| selectedCase := NoAuth; selectedAgent := agent;
     isLoading := false; results := []; expandedResult := None;
     trace := [] |}.

(** The events an invocation adds to the trace. *)
Definition runTrace (w : World) (config : AppConfig) (st : State)
  : list Event :=
  drop (length (trace st)) (trace (after (runSimulation w config) st)).

(** Some required field of the configuration is empty. *)
Definition someFieldMissing (config : AppConfig) : Prop :=
  orgName config = "" \/ clientId config = "" \/ targetUrl config = ""
  \/ agentId (coordinatorAgent config) = ""
  \/ agentSecret (coordinatorAgent config) = ""
  \/ agentId (expertAgent config) = ""
  \/ agentSecret (expertAgent config) = "".

(** The reading under test: on a non-success answer whose body cannot be
    parsed, the authenticator fails with the generic reason. *)
Definition genericReasonOnUnparsedBody : Prop :=
  forall w config agentId agentSecret r e,
    fetch w tokenUrl (tokenRequest config agentId agentSecret) = Normal r ->
    ok r = false ->
    json r = Throw e ->
    authResult w config agentId agentSecret
      = Throw (ErrorObj "Failed to authenticate").

(** Which handlers clear, and which are runs with a complete
    configuration. *)
Definition isClear (a : Action) : bool :=
  match a with Clear => true | _ => false end.

Definition isValidRun (a : Action) : bool :=
  match a with Run _ config => isConfigValid config | _ => false end.

(** The credentials the case authenticates with and the agent type it
    claims. *)
Definition authenticatesWith (config : AppConfig) (st : State)
  : AgentCredentials :=
  match selectedCase st with
  | WrongAgent => credentials (getWrongAgentCredentials config)
  | _ => getAgentCredentials config (selectedAgent st)
  end.

Definition claims (config : AppConfig) (st : State) : string :=
  match selectedCase st with
  | WrongAgent => claimedAgentType (getWrongAgentCredentials config)
  | _ => selectedAgent st
  end.

(** ** What the render shows

    The parts of the returned JSX that decide something: which controls
    are there, which are disabled, and what a result row displays. *)

(** The colour of the dot in a result header. *)
Definition statusDot (statusCode : Z) : string :=
  if (200 <=? statusCode)%Z && (statusCode <? 300)%Z then "bg-green-500"
  else if (400 <=? statusCode)%Z && (statusCode <? 500)%Z then "bg-yellow-500"
  else "bg-red-500".

(** [disabled={isLoading || !isConfigValid()}] on the run button. *)
Definition runDisabled (config : AppConfig) (st : State) : bool :=
  isLoading st || negb (isConfigValid config).

(** The agent [<select>] is rendered for the first and the third case. *)
Definition agentSelectShown (st : State) : bool :=
  match selectedCase st with
  | CorrectAgent | NoAuth => true
  | WrongAgent => false
  end.

(** The values of its two [<option>]s. *)
Definition agentOptions : list string :=
  ["Support-Coordinator"; "Technical-Specialist"].

(** [results.length > 0 && <button onClick={clearResults}>] *)
Definition clearShown (st : State) : bool :=
  (0 <? length (results st))%nat.

(** [expandedResult === index && <div>...details...</div>] *)
Definition detailsShown (st : State) (index : nat) : bool :=
  bool_decide (expandedResult st = Some index).

(** What a guarded piece of the render comes to: the element, nothing,
    or a fault raised while rendering. *)
Inductive rendered (A : Type) : Type :=
| Shown (a : A)
| Hidden
| RenderThrows.
Arguments Shown {A} a.
Arguments Hidden {A}.
Arguments RenderThrows {A}.

(** The [href] of the "Decode Token" link of a result, the link being
    rendered under [result.tokenReceived && ...] and its address being a
    template literal over the token. *)
Definition decodeHref (result : SimulationResult) : rendered string :=
  if truthy (tokenReceived result) then
    match toString (tokenReceived result) with
    | Some text => Shown ("https://jwt.io/#id_token=" +:+ text)
    | None => RenderThrows
    end
  else Hidden.

(** Whether the control behind a handler is there to be used in the
    render of [st]: the radio buttons always are; the agent select when it
    is shown, with one of its options; the run button unless disabled;
    "Clear All" when there are results; a result header for each index of
    [results.map]. *)
Definition enabled (a : Action) (st : State) : bool :=
  match a with
  | SelectCase _ => true
  | SelectAgent agent =>
      agentSelectShown st && bool_decide (agent ∈ agentOptions)
  | Run _ config => negb (runDisabled config st)
  | Clear => clearShown st
  | Toggle index => bool_decide (index < length (results st))%nat
  end.

(** Running handlers one after the other, each through a control that is
    there when it is used. *)
Fixpoint enabledAll (acts : list Action) (st : State) : bool :=
  match acts with
  | [] => true
  | a :: rest => enabled a st && enabledAll rest (after (handle a) st)
  end.

Definition isAlert (ev : Event) : bool :=
  match ev with EvAlert _ => true | _ => false end.

(** What holds of the component between two handlers, as long as it is
    driven through its controls. *)
Definition uiInvariant (st : State) : bool :=
  negb (isLoading st)
  && bool_decide (selectedAgent st ∈ agentOptions)
  && match expandedResult st with
     | Some index => bool_decide (index < length (results st))%nat
     | None => true
     end
  && forallb (fun ev => negb (isAlert ev)) (trace st).

(** What a stored record says about itself, case by case. *)
Definition recordCoherent (r : SimulationResult) : Prop :=
  match caseType r with
  | CorrectAgent => authUsed r = agentType r +:+ " credentials"
  | WrongAgent =>
      (agentType r = "Technical-Specialist"
       /\ authUsed r = "Support-Coordinator credentials")
      \/ (statusCode r = 500%Z /\ tokenReceived r = VNull)
  | NoAuth =>
      authUsed r = "No authentication" /\ tokenReceived r = VNull
  end.

(** [v.k] without the state threading, for a [v] that is neither [null]
    nor [undefined]. *)
Definition field (v : value) (k : string) : value :=
  match v with
  | VObj fields => assoc k fields
  | _ => VUndefined
  end.

(** A fresh component with the first case and a given agent selected. *)
Definition matching (agent : string) : State :=
  {| selectedCase := CorrectAgent; selectedAgent := agent;
     isLoading := false; results := []; expandedResult := None;
     trace := [] |}.

(** The token endpoint answers with the literal [null]. *)
Definition nullRefusal : World :=
  browser (answers 401 VNull) (answers 200 (VObj [])).

(** The token endpoint refuses with a structured [error]. *)
Definition structuredRefusal : World :=
  browser (answers 401 (VObj [("error", VObj [("code", VNum "7")])]))
          (answers 200 (VObj [])).

(** The token endpoint refuses with an [error] object that has a
    [toString] entry of its own. *)
Definition shadowingRefusal : World :=
  browser (answers 401 (VObj [("error", VObj [("toString", VNum "1")])]))
          (answers 200 (VObj [])).

(** The token endpoint issues, as the token, an object that has a
    [toString] entry of its own; the gateway would accept. *)
Definition shadowingTokenWorld : World :=
  browser (answers 200
             (VObj [("access_token", VObj [("toString", VNum "1")])]))
          (answers 200 (VObj [("reply", VStr "hello")])).

(** The token endpoint issues the number 1e21 as the token. *)
Definition numericTokenWorld : World :=
  browser (answers 200 (VObj [("access_token", VNum "1e+21")]))
          (answers 200 (VObj [("reply", VStr "hello")])).

(** The token endpoint issues ["T"]; the gateway answers with a page that
    is not JSON. *)
Definition garbledGateway : World :=
  browser (answers 200 (VObj [("access_token", VStr "T")]))
          (Normal {| status := 200;
                     json := Throw (ErrorObj "Unexpected token '<'") |}).

(** The token endpoint issues ["T"]; the gateway itself answers 500. *)
Definition failingGateway : World :=
  browser (answers 200 (VObj [("access_token", VStr "T")]))
          (answers 500 (VObj [("error", VStr "upstream down")])).

(** The reading under test: a dispatch call sends a request with an
    [Authorization] header exactly when its token is truthy. *)
Definition sendsAuthorization (w : World) (config : AppConfig)
    (token : value) (agentType : string) : Prop :=
  exists init,
    fetches (trace (snd (sendChatRequest w config token agentType
                           initialState))) = [(chatUrl, init)]
    /\ is_Some (headers init !! "Authorization").

Definition authorizationIffTruthy : Prop :=
  forall w config token agentType,
    sendsAuthorization w config token agentType <-> truthy token = true.

(** * Properties *)

(** ** How the handlers touch the state

    The network-facing operations change nothing of the component state;
    they only add to the trace, and what they add and how they complete
    does not depend on the state they start in. *)

Section Emits.

Context {A B : Type}.

Lemma extend_nil st : extend st [] = st.
Proof. destruct st; unfold extend; simpl. by rewrite app_nil_r. Qed.

Lemma extend_extend st tr1 tr2 :
  extend (extend st tr1) tr2 = extend st (tr1 ++ tr2).
Proof. unfold extend; simpl. by rewrite app_assoc. Qed.

Lemma emits_ret (a : A) : emits (Js.ret a) (Normal a) [].
Proof. intros st. unfold Js.ret. by rewrite extend_nil. Qed.

Lemma emits_throw (e : thrown) : emits (@Js.throw A e) (Throw e) [].
Proof. intros st. unfold Js.throw. by rewrite extend_nil. Qed.

Lemma emits_await (c : completion A) : emits (Js.await c) c [].
Proof. intros st. unfold Js.await. by rewrite extend_nil. Qed.

Lemma emits_bind_normal (m : Js.M A) (k : A -> Js.M B) a c tr1 tr2 :
  emits m (Normal a) tr1 -> emits (k a) c tr2 ->
  emits (Js.bind m k) c (tr1 ++ tr2).
Proof.
  intros Hm Hk st. unfold Js.bind. rewrite Hm, Hk. by rewrite extend_extend.
Qed.

Lemma emits_bind_throw (m : Js.M A) (k : A -> Js.M B) e tr :
  emits m (Throw e) tr -> emits (Js.bind m k) (Throw e) tr.
Proof. intros Hm st. unfold Js.bind. by rewrite Hm. Qed.

Lemma emits_catch_normal (m : Js.M A) h a tr :
  emits m (Normal a) tr -> emits (Js.try_catch m h) (Normal a) tr.
Proof. intros Hm st. unfold Js.try_catch. by rewrite Hm. Qed.

Lemma emits_catch_throw (m : Js.M A) h e c tr1 tr2 :
  emits m (Throw e) tr1 -> emits (h e) c tr2 ->
  emits (Js.try_catch m h) c (tr1 ++ tr2).
Proof.
  intros Hm Hh st. unfold Js.try_catch. rewrite Hm, Hh.
  by rewrite extend_extend.
Qed.

Lemma emits_fun (m : Js.M A) c1 c2 tr1 tr2 :
  emits m c1 tr1 -> emits m c2 tr2 -> c1 = c2 /\ tr1 = tr2.
Proof.
  intros H1 H2. specialize (H1 initialState). specialize (H2 initialState).
  rewrite H1 in H2. by inversion H2.
Qed.

End Emits.

Lemma emits_emit ev : emits (Js.emit ev) (Normal tt) [ev].
Proof. intros st. reflexivity. Qed.

Lemma emits_doFetch w url init :
  emits (doFetch w url init) (fetch w url init) [EvFetch url init].
Proof.
  unfold doFetch.
  change [EvFetch url init] with ([EvFetch url init] ++ []).
  eapply emits_bind_normal; [apply emits_emit | apply emits_await].
Qed.

(** *** The dispatcher: one request, then the reply or the fault *)

Lemma emits_sendChatRequest w config token agentType :
  emits (sendChatRequest w config token agentType)
        (chatOutcome w config token agentType)
        (chatTrace w config token agentType).
Proof.
  unfold sendChatRequest, chatOutcome, chatTrace, chatRequest.
  destruct (chatHeaders w config token agentType) as [headers|e].
  - change [EvFetch chatUrl (chatInit headers agentType)]
      with ([] ++ [EvFetch chatUrl (chatInit headers agentType)]).
    eapply emits_bind_normal; [apply emits_await|].
    pose proof (emits_doFetch w "/api/chat" (chatInit headers agentType))
      as Hf.
    destruct (fetch w "/api/chat" (chatInit headers agentType)) as [r|e].
    + rewrite <- (app_nil_r [EvFetch _ _]).
      eapply emits_bind_normal; [exact Hf|].
      destruct (json r) as [data|e].
      * rewrite <- (app_nil_r []).
        eapply emits_bind_normal; [apply emits_await | apply emits_ret].
      * apply emits_bind_throw, emits_await.
    + by apply emits_bind_throw.
  - apply emits_bind_throw, emits_await.
Qed.

(** *** The authenticator: one request, then the token or the fault,
    the fault being logged to the console before it is rethrown *)

Lemma emits_authenticateAgent w config agentId agentSecret :
  emits (authenticateAgent w config agentId agentSecret)
        (authResult w config agentId agentSecret)
        (EvFetch tokenUrl (tokenRequest config agentId agentSecret)
           :: consoleTail (authResult w config agentId agentSecret)).
Proof.
  intros st. unfold authResult, authenticateAgent, tokenUrl. run_monad.
  destruct (fetch w _ _) as [r|e]; cbn;
    [|by rewrite <- app_assoc].
  destruct (ok r); cbn.
  - destruct (json r) as [[]|e]; cbn; by rewrite <- ?app_assoc.
  - destruct (json r) as [[]|e]; cbn; try by rewrite <- ?app_assoc.
    destruct (newError w _); cbn; by rewrite <- ?app_assoc.
Qed.

Lemma fetches_consoleTail {A} (c : completion A) : fetches (consoleTail c) = [].
Proof. by destruct c. Qed.

Lemma fetches_app tr1 tr2 : fetches (tr1 ++ tr2) = fetches tr1 ++ fetches tr2.
Proof. apply omap_app. Qed.

(** What the authenticator settles to, read off the token endpoint's
    answer. *)
Lemma authResult_unreachable w config agentId agentSecret e :
  fetch w tokenUrl (tokenRequest config agentId agentSecret) = Throw e ->
  authResult w config agentId agentSecret = Throw e.
Proof.
  intros Hf. unfold authResult, authenticateAgent. run_monad.
  unfold tokenUrl in Hf. by rewrite Hf.
Qed.

Lemma authResult_unparsed w config agentId agentSecret r e :
  fetch w tokenUrl (tokenRequest config agentId agentSecret) = Normal r ->
  json r = Throw e ->
  authResult w config agentId agentSecret = Throw e.
Proof.
  intros Hf Hj. unfold authResult, authenticateAgent. run_monad.
  unfold tokenUrl in Hf. rewrite Hf. cbn. rewrite Hj.
  by destruct (ok r).
Qed.

Lemma authResult_rejected w config agentId agentSecret r fields :
  fetch w tokenUrl (tokenRequest config agentId agentSecret) = Normal r ->
  ok r = false ->
  json r = Normal (VObj fields) ->
  authResult w config agentId agentSecret =
    Throw (raised (newError w (js_or (assoc "error" fields)
                                 (VStr "Failed to authenticate")))).
Proof.
  intros Hf Hok Hj. unfold authResult, authenticateAgent. run_monad.
  unfold tokenUrl in Hf. rewrite Hf. cbn. rewrite Hok, Hj. cbn.
  by destruct (newError w _).
Qed.

Lemma authResult_granted w config agentId agentSecret r fields :
  fetch w tokenUrl (tokenRequest config agentId agentSecret) = Normal r ->
  ok r = true ->
  json r = Normal (VObj fields) ->
  authResult w config agentId agentSecret =
    Normal (assoc "access_token" fields).
Proof.
  intros Hf Hok Hj. unfold authResult, authenticateAgent. run_monad.
  unfold tokenUrl in Hf. rewrite Hf. cbn. by rewrite Hok, Hj.
Qed.

(** *** The authenticated pipeline shared by the first two cases *)

Lemma emits_pipeline {R} w config agentId agentSecret claimed
    (mk : value -> value * Z -> R) :
  emits (token <~ authenticateAgent w config agentId agentSecret ;;
         reply <~ sendChatRequest w config token claimed ;;
         Js.ret (mk token reply))
        (pipelineResult w config agentId agentSecret claimed mk)
        (pipelineTrace w config agentId agentSecret claimed).
Proof.
  unfold pipelineResult, pipelineTrace.
  pose proof (emits_authenticateAgent w config agentId agentSecret) as Ha.
  destruct (authResult w config agentId agentSecret) as [token|e].
  - cbn [consoleTail app] in *.
    change (?x :: ?l) with ([x] ++ l).
    eapply emits_bind_normal; [exact Ha|].
    pose proof (emits_sendChatRequest w config token claimed) as Hc.
    destruct (chatOutcome w config token claimed) as [reply|e].
    + rewrite <- (app_nil_r (chatTrace _ _ _ _)).
      eapply emits_bind_normal; [exact Hc | apply emits_ret].
    + by apply emits_bind_throw.
  - cbn [consoleTail app] in *. by apply emits_bind_throw.
Qed.

(** *** The three cases *)

Lemma emits_at_initial {A} (m : Js.M A) c tr :
  emits m c tr -> fst (m initialState) = c /\ trace (snd (m initialState)) = tr.
Proof. intros H. by rewrite H. Qed.

Lemma emits_at_initial_eq {A} (m : Js.M A) c tr :
  emits m c tr ->
  emits m (fst (m initialState)) (trace (snd (m initialState))).
Proof. intros H. by destruct (emits_at_initial _ _ _ H) as [-> ->]. Qed.

Lemma emits_noAuth w config agent :
  emits (runCase w config NoAuth agent)
        (match chatOutcome w config VNull agent with
         | Throw e => Throw e
         | Normal reply =>
             Normal {| caseType := NoAuth; agentType := agent;
                       authUsed := "No authentication";
                       tokenReceived := VNull; response := fst reply;
                       statusCode := snd reply; timestamp := now w |}
         end)
        (chatTrace w config VNull agent).
Proof.
  unfold runCase.
  pose proof (emits_sendChatRequest w config VNull agent) as Hc.
  destruct (chatOutcome w config VNull agent) as [reply|e].
  - rewrite <- (app_nil_r (chatTrace _ _ _ _)).
    eapply emits_bind_normal; [exact Hc | apply emits_ret].
  - by apply emits_bind_throw.
Qed.

Lemma emits_runCase w config c agent :
  emits (runCase w config c agent)
        (caseResult w config c agent) (caseTrace w config c agent).
Proof.
  unfold caseResult, caseTrace.
  destruct c.
  - pose proof (emits_pipeline w config
                  (agentId (getAgentCredentials config agent))
                  (agentSecret (getAgentCredentials config agent)) agent
                  (fun token reply =>
                     {| caseType := CorrectAgent; agentType := agent;
                        authUsed := agent +:+ " credentials";
                        tokenReceived := token; response := fst reply;
                        statusCode := snd reply; timestamp := now w |}))
      as H.
    apply (emits_at_initial_eq _ _ _ H).
  - pose proof (emits_pipeline w config
                  (agentId (coordinatorAgent config))
                  (agentSecret (coordinatorAgent config))
                  "Technical-Specialist"
                  (fun token reply =>
                     {| caseType := WrongAgent;
                        agentType := "Technical-Specialist";
                        authUsed := "Support-Coordinator credentials";
                        tokenReceived := token; response := fst reply;
                        statusCode := snd reply; timestamp := now w |}))
      as H.
    apply (emits_at_initial_eq _ _ _ H).
  - pose proof (emits_noAuth w config agent) as H.
    apply (emits_at_initial_eq _ _ _ H).
Qed.

Lemma caseResult_correct w config agent :
  caseResult w config CorrectAgent agent =
    pipelineResult w config
      (agentId (getAgentCredentials config agent))
      (agentSecret (getAgentCredentials config agent)) agent
      (fun token reply =>
         {| caseType := CorrectAgent; agentType := agent;
            authUsed := agent +:+ " credentials";
            tokenReceived := token; response := fst reply;
            statusCode := snd reply; timestamp := now w |}).
Proof.
  eapply emits_fun; [apply emits_runCase | apply emits_pipeline].
Qed.

Lemma caseTrace_correct w config agent :
  caseTrace w config CorrectAgent agent =
    pipelineTrace w config
      (agentId (getAgentCredentials config agent))
      (agentSecret (getAgentCredentials config agent)) agent.
Proof.
  eapply emits_fun; [apply emits_runCase|].
  apply (emits_pipeline w config _ _ agent
           (fun token reply =>
              {| caseType := CorrectAgent; agentType := agent;
                 authUsed := agent +:+ " credentials";
                 tokenReceived := token; response := fst reply;
                 statusCode := snd reply; timestamp := now w |})).
Qed.

Lemma caseResult_wrong w config agent :
  caseResult w config WrongAgent agent =
    pipelineResult w config
      (agentId (coordinatorAgent config))
      (agentSecret (coordinatorAgent config)) "Technical-Specialist"
      (fun token reply =>
         {| caseType := WrongAgent;
            agentType := "Technical-Specialist";
            authUsed := "Support-Coordinator credentials";
            tokenReceived := token; response := fst reply;
            statusCode := snd reply; timestamp := now w |}).
Proof.
  eapply emits_fun; [apply emits_runCase | apply emits_pipeline].
Qed.

Lemma caseTrace_wrong w config agent :
  caseTrace w config WrongAgent agent =
    pipelineTrace w config
      (agentId (coordinatorAgent config))
      (agentSecret (coordinatorAgent config)) "Technical-Specialist".
Proof.
  eapply emits_fun; [apply emits_runCase|].
  apply (emits_pipeline w config _ _ "Technical-Specialist"
           (fun token reply =>
              {| caseType := WrongAgent;
                 agentType := "Technical-Specialist";
                 authUsed := "Support-Coordinator credentials";
                 tokenReceived := token; response := fst reply;
                 statusCode := snd reply; timestamp := now w |})).
Qed.

Lemma caseTrace_noAuth w config agent :
  caseTrace w config NoAuth agent = chatTrace w config VNull agent.
Proof. eapply emits_fun; [apply emits_runCase | apply emits_noAuth]. Qed.

Lemma caseResult_noAuth w config agent :
  caseResult w config NoAuth agent =
    match chatOutcome w config VNull agent with
    | Throw e => Throw e
    | Normal reply =>
        Normal {| caseType := NoAuth; agentType := agent;
                  authUsed := "No authentication";
                  tokenReceived := VNull; response := fst reply;
                  statusCode := snd reply; timestamp := now w |}
    end.
Proof. eapply emits_fun; [apply emits_runCase | apply emits_noAuth]. Qed.

(** *** The runner *)

Lemma runSimulation_valid w config st :
  isConfigValid config = true ->
  after (runSimulation w config) st =
    {| selectedCase := selectedCase st;
       selectedAgent := selectedAgent st;
       isLoading := false;
       results := recorded w config st :: results st;
       expandedResult := Some 0%nat;
       trace := trace st
                ++ caseTrace w config (selectedCase st) (selectedAgent st) |}.
Proof.
  intros Hv. unfold after, runSimulation, recorded. rewrite Hv. cbn.
  unfold Js.try_finally, Js.try_catch, Js.bind at 1 2.
  unfold setIsLoading at 1. rewrite (emits_runCase w config).
  destruct (caseResult w config (selectedCase st) (selectedAgent st));
    reflexivity.
Qed.

Lemma runSimulation_invalid w config st :
  isConfigValid config = false ->
  runSimulation w config st =
    (Normal tt,
     extend st [EvAlert "Please configure all settings first"; EvOpenConfig]).
Proof.
  intros Hv. unfold runSimulation. rewrite Hv. cbn.
  unfold Js.bind, Js.emit, Js.ret, extend. cbn. by rewrite <- app_assoc.
Qed.

Lemma runTrace_valid w config st :
  isConfigValid config = true ->
  runTrace w config st =
    caseTrace w config (selectedCase st) (selectedAgent st).
Proof.
  intros Hv. unfold runTrace. rewrite runSimulation_valid by done. cbn.
  by rewrite drop_app_length.
Qed.

Lemma runTrace_invalid w config st :
  isConfigValid config = false ->
  runTrace w config st =
    [EvAlert "Please configure all settings first"; EvOpenConfig].
Proof.
  intros Hv. unfold runTrace, after. rewrite runSimulation_invalid by done.
  cbn. by rewrite drop_app_length.
Qed.

(** ** The documented scenarios, run *)

Example toString_nested_array :
  toString (VArr [VNum "1"; VNull; VArr [VStr "a"; VNum "-3"]; VObj []])
  = Some "1,,a,-3,[object Object]".
Proof. reflexivity. Qed.

Example toString_shadowed :
  toString (VObj [("toString", VNum "1")]) = None
  /\ toString (VArr [VStr "a"; VObj [("toString", VNull)]]) = None.
Proof. split; reflexivity. Qed.

Example impersonation_scenario :
  results (after (runSimulation refusingGateway exampleConfig)
             (impersonating "Support-Coordinator"))
  = [ {| caseType := WrongAgent;
         agentType := "Technical-Specialist";
         authUsed := "Support-Coordinator credentials";
         tokenReceived := VStr "T";
         response := VObj [("error", VStr "agent mismatch")];
         statusCode := 403;
         timestamp := 1700000000000 |} ].
Proof. reflexivity. Qed.

Example noAuth_scenario :
  fetches (trace (after (runSimulation grantingWorld exampleConfig)
                    (unauthenticated "Technical-Specialist")))
  = [ (chatUrl,
       chatInit {[ "Content-Type" := "application/json";
                   "x-agent-type" := "Technical-Specialist";
                   "x-target-url" := "https://gw.example/chat" ]}
                "Technical-Specialist") ]
  /\ map tokenReceived
       (results (after (runSimulation grantingWorld exampleConfig)
                   (unauthenticated "Technical-Specialist")))
     = [ VNull ].
Proof. split; reflexivity. Qed.

(** A token that cannot be converted stops the run before the
    gateway is contacted. *)
Example shadowing_token_scenario :
  fetches (trace (after (runSimulation shadowingTokenWorld exampleConfig)
                    initialState))
  = [ (tokenUrl, tokenRequest exampleConfig "coord-1" "s1") ]
  /\ map (fun r => (statusCode r, response r))
       (results (after (runSimulation shadowingTokenWorld exampleConfig)
                   initialState))
     = [ (500%Z,
          VObj [("error",
                 VStr "Cannot convert object to primitive value")]) ].
Proof. split; reflexivity. Qed.

(** ** One result per invocation *)

(** C1. With a complete configuration, an invocation of [runSimulation]
    puts exactly one record in front of the history: the history afterwards
    is the recorded result followed by the history before.  When the case
    pipeline throws an [Error] with message [m], that record has status code
    500, the object [{ error: m }] as its response and [null] as its token
    (the text is ["Unknown error"] when what was thrown is not an [Error]).
    This is in particular what happens when the token endpoint (for the two
    authenticated cases) or the gateway endpoint cannot be reached. *)
Theorem runSimulation_records_exactly_one w config st :
  isConfigValid config = true ->
  results (after (runSimulation w config) st)
    = recorded w config st :: results st
  /\ length (results (after (runSimulation w config) st))
     = S (length (results st))
  /\ (forall message,
        caseResult w config (selectedCase st) (selectedAgent st)
          = Throw (ErrorObj message) ->
        statusCode (recorded w config st) = 500%Z
        /\ response (recorded w config st) = VObj [("error", VStr message)]
        /\ tokenReceived (recorded w config st) = VNull)
  /\ (caseResult w config (selectedCase st) (selectedAgent st)
        = Throw NotAnError ->
      statusCode (recorded w config st) = 500%Z
      /\ response (recorded w config st)
         = VObj [("error", VStr "Unknown error")]
      /\ tokenReceived (recorded w config st) = VNull)
  /\ (forall message,
        selectedCase st <> NoAuth ->
        (forall init, fetch w tokenUrl init = Throw (ErrorObj message)) ->
        statusCode (recorded w config st) = 500%Z
        /\ response (recorded w config st) = VObj [("error", VStr message)]
        /\ tokenReceived (recorded w config st) = VNull)
  /\ (forall message,
        (forall init, fetch w chatUrl init = Throw (ErrorObj message)) ->
        statusCode (recorded w config st) = 500%Z
        /\ tokenReceived (recorded w config st) = VNull
        /\ (exists text,
              response (recorded w config st) = VObj [("error", VStr text)])
        /\ (selectedCase st = NoAuth ->
            response (recorded w config st)
            = VObj [("error", VStr message)])).
Proof.
  intros Hv. rewrite runSimulation_valid by done. cbn.
  split; [done|]. split; [done|].
  assert (Hthrown : forall error,
             caseResult w config (selectedCase st) (selectedAgent st)
               = Throw error ->
             statusCode (recorded w config st) = 500%Z
             /\ response (recorded w config st)
                = VObj [("error", VStr (errorText error))]
             /\ tokenReceived (recorded w config st) = VNull).
  { intros error He. unfold recorded. by rewrite He. }
  split; [|split; [|split]].
  - intros message He. exact (Hthrown _ He).
  - intros He. exact (Hthrown _ He).
  - intros message Hcase Hdown.
    apply (Hthrown (ErrorObj message)).
    destruct (selectedCase st); [| |done].
    + rewrite caseResult_correct. unfold pipelineResult.
      by rewrite (authResult_unreachable _ _ _ _ (ErrorObj message)).
    + rewrite caseResult_wrong. unfold pipelineResult.
      by rewrite (authResult_unreachable _ _ _ _ (ErrorObj message)).
  - intros message Hdown.
    assert (Hchat : forall token agent,
               exists error,
                 chatOutcome w config token agent = Throw error
                 /\ (token = VNull -> error = ErrorObj message)).
    { intros token agent. unfold chatOutcome.
      destruct (chatRequest w config token agent) as [init|e] eqn:Hreq.
      - fold chatUrl. rewrite Hdown. by eexists.
      - exists e. split; [done|]. intros ->. by cbn in Hreq. }
    assert (Hcase : exists error,
               caseResult w config (selectedCase st) (selectedAgent st)
                 = Throw error
               /\ (selectedCase st = NoAuth -> error = ErrorObj message)).
    { destruct (selectedCase st).
      - rewrite caseResult_correct. unfold pipelineResult.
        destruct (authResult _ _ _ _) as [token|e]; [|by eexists].
        destruct (Hchat token (selectedAgent st)) as (error & -> & _).
        by eexists.
      - rewrite caseResult_wrong. unfold pipelineResult.
        destruct (authResult _ _ _ _) as [token|e]; [|by eexists].
        destruct (Hchat token "Technical-Specialist") as (error & -> & _).
        by eexists.
      - rewrite caseResult_noAuth.
        destruct (Hchat VNull (selectedAgent st)) as (error & -> & Hn).
        exists error. split; [done|]. intros _. by apply Hn. }
    destruct Hcase as (error & He & Hn).
    destruct (Hthrown _ He) as (H1 & H2 & H3).
    split; [done|]. split; [done|]. split; [by eexists|].
    intros Hno. rewrite H2. by rewrite (Hn Hno).
Qed.

(** C1, at the example configuration with every endpoint unreachable:
    the one record stored is the synthesized failure. *)
Lemma runSimulation_records_exactly_one_witness :
  isConfigValid exampleConfig = true
  /\ results (after (runSimulation offline exampleConfig) initialState)
     = [ {| caseType := CorrectAgent;
            agentType := "Support-Coordinator";
            authUsed := "Support-Coordinator credentials";
            tokenReceived := VNull;
            response := VObj [("error", VStr "Failed to fetch")];
            statusCode := 500;
            timestamp := 1700000000000 |} ].
Proof.
  split; [reflexivity|].
  destruct (runSimulation_records_exactly_one offline exampleConfig
              initialState eq_refl) as [H _].
  rewrite H. reflexivity.
Defined.

(** ** The precondition gate *)

Lemma nonempty_false s : nonempty s = false <-> s = "".
Proof.
  unfold nonempty; cbn. rewrite negb_false_iff. apply String.eqb_eq.
Qed.

Lemma isConfigValid_false config :
  isConfigValid config = false <-> someFieldMissing config.
Proof.
  unfold isConfigValid, someFieldMissing.
  rewrite !andb_false_iff, !nonempty_false. tauto.
Qed.

(** C2. When any of the configured fields (organisation, client, target
    URL, either agent's identifier or secret) is missing, [runSimulation]
    returns without throwing, having issued no [fetch] and left the history
    (and the rest of the component state) as it was: all it does is raise
    the alert and ask for the configuration dialog. *)
Theorem runSimulation_incomplete_config_aborts w config st :
  someFieldMissing config ->
  fst (runSimulation w config st) = Normal tt
  /\ fetches (runTrace w config st) = []
  /\ fetches (trace (after (runSimulation w config) st)) = fetches (trace st)
  /\ results (after (runSimulation w config) st) = results st
  /\ after (runSimulation w config) st
     = extend st [EvAlert "Please configure all settings first";
                  EvOpenConfig].
Proof.
  intros Hmiss. apply isConfigValid_false in Hmiss.
  rewrite runTrace_invalid by done. unfold after.
  rewrite runSimulation_invalid by done. cbn.
  rewrite fetches_app. cbn. by rewrite app_nil_r.
Qed.

(** C2, at the configuration whose target URL is missing, against a
    browser whose endpoints would both answer. *)
Lemma runSimulation_incomplete_config_aborts_witness :
  someFieldMissing noTargetConfig
  /\ fetches (runTrace grantingWorld noTargetConfig initialState) = []
  /\ results (after (runSimulation grantingWorld noTargetConfig)
                initialState) = [].
Proof.
  assert (Hmiss : someFieldMissing noTargetConfig).
  { right; right; left; reflexivity. }
  split; [exact Hmiss|].
  destruct (runSimulation_incomplete_config_aborts grantingWorld
              noTargetConfig initialState Hmiss) as (_ & H1 & _ & H2 & _).
  split; [exact H1 | exact H2].
Defined.

(** ** The request the dispatcher builds *)

Lemma chatRequest_falsy w config token agentType :
  truthy token = false ->
  chatRequest w config token agentType
  = Normal (chatInit {[ "Content-Type" := "application/json";
                        "x-agent-type" := agentType;
                        "x-target-url" := targetUrl config ]} agentType).
Proof. intros Ht. unfold chatRequest, chatHeaders. by rewrite Ht. Qed.

Lemma chatRequest_convertible w config token agentType text :
  truthy token = true ->
  toString token = Some text ->
  chatRequest w config token agentType
  = Normal (chatInit
              (<[ "Authorization" := "Bearer " +:+ text ]>
                 {[ "Content-Type" := "application/json";
                    "x-agent-type" := agentType;
                    "x-target-url" := targetUrl config ]}) agentType).
Proof.
  intros Ht Hs. unfold chatRequest, chatHeaders, convert. by rewrite Ht, Hs.
Qed.

Lemma chatRequest_unconvertible w config token agentType :
  truthy token = true ->
  toString token = None ->
  chatRequest w config token agentType
  = Throw (ErrorObj (conversionErrorMessage w token)).
Proof.
  intros Ht Hs. unfold chatRequest, chatHeaders, convert. by rewrite Ht, Hs.
Qed.

(** Whatever the token, a request that gets built is a POST carrying the
    JSON content type, the claimed agent type and the configured target,
    and [Authorization] exactly for a truthy token. *)
Lemma chatRequest_built w config token agentType init :
  chatRequest w config token agentType = Normal init ->
  method init = "POST"
  /\ headers init !! "Content-Type" = Some "application/json"
  /\ headers init !! "x-agent-type" = Some agentType
  /\ headers init !! "x-target-url" = Some (targetUrl config)
  /\ headers init !! "Authorization"
     = (if truthy token
        then (fun text => "Bearer " +:+ text) <$> toString token
        else None)
  /\ (truthy token = true -> is_Some (toString token)).
Proof.
  destruct (truthy token) eqn:Ht.
  - destruct (toString token) as [text|] eqn:Hs.
    + rewrite (chatRequest_convertible _ _ _ _ text) by done.
      intros [= <-]. cbn.
      repeat split; try by simplify_map_eq.
    + by rewrite chatRequest_unconvertible.
  - rewrite chatRequest_falsy by done. intros [= <-]. cbn.
    repeat split; by simplify_map_eq.
Qed.

(** ** The impersonation test vector *)

(** C3. Whatever agent is selected, the impersonation case authenticates
    with the coordinator's configured identifier and secret: the first
    request of the run is the POST of the organisation, the client and the
    coordinator's identifier and secret to the token route.  When a token
    comes back and the chat request can be built from it, that request is
    the only other one, and it carries [x-agent-type: Technical-Specialist];
    it is built for every token that is falsy or converts to a string.
    The requests are the same for every selected agent, and the pair
    returned by [getWrongAgentCredentials] mentions no state at all. *)
Theorem impersonation_uses_fixed_pair w config st :
  isConfigValid config = true ->
  selectedCase st = WrongAgent ->
  getWrongAgentCredentials config
    = {| credentials := coordinatorAgent config;
         claimedAgentType := "Technical-Specialist" |}
  /\ fetches (runTrace w config st)
     = ("/api/auth/agent-token",
        {| method := "POST";
           headers := {[ "Content-Type" := "application/json" ]};
           body := VObj
             [ ("orgName", VStr (orgName config));
               ("clientId", VStr (clientId config));
               ("agentId", VStr (agentId (coordinatorAgent config)));
               ("agentSecret",
                VStr (agentSecret (coordinatorAgent config))) ] |})
       :: match authResult w config (agentId (coordinatorAgent config))
                  (agentSecret (coordinatorAgent config)) with
          | Normal token =>
              match chatRequest w config token "Technical-Specialist" with
              | Normal init => [("/api/chat", init)]
              | Throw _ => []
              end
          | Throw _ => []
          end
  /\ (forall token init,
        chatRequest w config token "Technical-Specialist" = Normal init ->
        headers init !! "x-agent-type" = Some "Technical-Specialist")
  /\ (forall token,
        truthy token = false \/ is_Some (toString token) ->
        exists init,
          chatRequest w config token "Technical-Specialist" = Normal init)
  /\ (forall agent,
        runTrace w config (after (setSelectedAgent agent) st)
        = runTrace w config st).
Proof.
  intros Hv Hcase. split; [|split; [|split; [|split]]].
  - unfold getWrongAgentCredentials. by destruct (coordinatorAgent config).
  - rewrite runTrace_valid by done. rewrite Hcase, caseTrace_wrong.
    unfold pipelineTrace, chatTrace. cbn.
    rewrite fetches_app, fetches_consoleTail.
    destruct (authResult _ _ _ _) as [token|e]; [|done].
    by destruct (chatRequest _ _ _ _).
  - intros token init Hreq.
    by destruct (chatRequest_built _ _ _ _ _ Hreq) as (_ & _ & H & _).
  - intros token Htok.
    destruct (truthy token) eqn:Ht.
    + destruct Htok as [Hf | [text Hs]]; [done|].
      rewrite (chatRequest_convertible _ _ _ _ text) by done. by eexists.
    + rewrite chatRequest_falsy by done. by eexists.
  - intros agent. rewrite !runTrace_valid by done. cbn.
    by rewrite Hcase, !caseTrace_wrong.
Qed.

(** C3, with the specialist selected in the interface: the token request
    still carries the coordinator's credentials, and the chat request
    claims the specialist with the coordinator's token. *)
Lemma impersonation_uses_fixed_pair_witness :
  fetches (runTrace refusingGateway exampleConfig
             (impersonating "Technical-Specialist"))
  = [ ("/api/auth/agent-token",
       {| method := "POST";
          headers := {[ "Content-Type" := "application/json" ]};
          body := VObj [ ("orgName", VStr "acme");
                         ("clientId", VStr "c1");
                         ("agentId", VStr "coord-1");
                         ("agentSecret", VStr "s1") ] |});
      ("/api/chat",
       chatInit {[ "Content-Type" := "application/json";
                   "x-agent-type" := "Technical-Specialist";
                   "x-target-url" := "https://gw.example/chat";
                   "Authorization" := "Bearer T" ]}
                "Technical-Specialist") ].
Proof.
  destruct (impersonation_uses_fixed_pair refusingGateway exampleConfig
              (impersonating "Technical-Specialist") eq_refl eq_refl)
    as (_ & H & _).
  rewrite H. reflexivity.
Defined.

(** ** No token, no [Authorization] header *)

(** C4. In the unauthenticated case the invocation issues a single
    request, the chat request; its header object has no [Authorization] key
    at all, and does have [Content-Type], [x-agent-type] (the selected
    agent) and [x-target-url] (the configured target). *)
Theorem noAuth_request_has_no_authorization w config st :
  isConfigValid config = true ->
  selectedCase st = NoAuth ->
  exists init,
    fetches (runTrace w config st) = [(chatUrl, init)]
    /\ headers init !! "Authorization" = None
    /\ ("Authorization" ∉ dom (headers init))
    /\ headers init !! "Content-Type" = Some "application/json"
    /\ headers init !! "x-agent-type" = Some (selectedAgent st)
    /\ headers init !! "x-target-url" = Some (targetUrl config).
Proof.
  intros Hv Hcase.
  exists (chatInit {[ "Content-Type" := "application/json";
                      "x-agent-type" := selectedAgent st;
                      "x-target-url" := targetUrl config ]}
                   (selectedAgent st)).
  rewrite runTrace_valid by done. rewrite Hcase, caseTrace_noAuth.
  split; [done|]. split; [done|].
  split; [by apply not_elem_of_dom|]. by cbn.
Qed.

(** C4, at the example configuration with the coordinator selected. *)
Lemma noAuth_request_has_no_authorization_witness :
  exists init,
    fetches (runTrace grantingWorld exampleConfig
               (unauthenticated "Support-Coordinator")) = [(chatUrl, init)]
    /\ headers init !! "Authorization" = None
    /\ ("Authorization" ∉ dom (headers init))
    /\ headers init !! "Content-Type" = Some "application/json"
    /\ headers init !! "x-agent-type" = Some "Support-Coordinator"
    /\ headers init !! "x-target-url" = Some "https://gw.example/chat".
Proof.
  exact (noAuth_request_has_no_authorization grantingWorld exampleConfig
           (unauthenticated "Support-Coordinator") eq_refl eq_refl).
Defined.

(** ** Why authentication failed *)

(** C5. The authenticator at a non-success answer with an empty body:
    [response.json()] rejects, and what is rethrown is that rejection, not
    the generic reason; the generic reason is what the neighbouring path
    gives, for a body that parses but has no [error].  So the statement
    that an unparsable body gives the generic reason does not hold of the
    code. *)
Lemma unparsed_body_is_not_generic :
  authResult emptyRefusal exampleConfig "coord-1" "s1"
    = Throw (ErrorObj "Unexpected end of JSON input")
  /\ authResult bareRefusal exampleConfig "coord-1" "s1"
     = Throw (ErrorObj "Failed to authenticate")
  /\ authResult explainedRefusal exampleConfig "coord-1" "s1"
     = Throw (ErrorObj "invalid_client")
  /\ ~ genericReasonOnUnparsedBody.
Proof.
  do 3 (split; [reflexivity|]).
  intros H.
  specialize (H emptyRefusal exampleConfig "coord-1" "s1"
                {| status := 401;
                   json := Throw (ErrorObj "Unexpected end of JSON input") |}
                (ErrorObj "Unexpected end of JSON input")
                eq_refl eq_refl eq_refl).
  discriminate H.
Qed.

(** ** Status classification *)

Lemma chatOutcome_answered w config token agentType init r data :
  chatRequest w config token agentType = Normal init ->
  fetch w chatUrl init = Normal r ->
  json r = Normal data ->
  chatOutcome w config token agentType = Normal (data, status r).
Proof.
  intros Hreq Hf Hj. unfold chatOutcome. rewrite Hreq.
  fold chatUrl. by rewrite Hf, Hj.
Qed.



(** ** Role isolation and the matched-identity example *)

(** C7. [getAgentCredentials] returns the coordinator's configured pair
    for ["Support-Coordinator"] and the specialist's for
    ["Technical-Specialist"], hence never the other role's pair when the
    two are configured differently.  Running the matched-identity case with
    the coordinator selected, against a token endpoint that grants a
    non-empty token [T]: the requests issued are the token request carrying
    the organisation, the client and the coordinator's identifier and
    secret, then the chat request with [x-agent-type: Support-Coordinator]
    and [Authorization: Bearer T]; and the record stored has
    [authUsed = "Support-Coordinator credentials"] (whether or not the
    gateway then answers). *)
Theorem matched_identity_coordinator w config st r fields T :
  isConfigValid config = true ->
  selectedCase st = CorrectAgent ->
  selectedAgent st = "Support-Coordinator" ->
  fetch w tokenUrl
    (tokenRequest config (agentId (coordinatorAgent config))
       (agentSecret (coordinatorAgent config))) = Normal r ->
  ok r = true ->
  json r = Normal (VObj fields) ->
  assoc "access_token" fields = VStr T ->
  T <> "" ->
  getAgentCredentials config "Support-Coordinator" = coordinatorAgent config
  /\ getAgentCredentials config "Technical-Specialist" = expertAgent config
  /\ (coordinatorAgent config <> expertAgent config ->
        getAgentCredentials config "Support-Coordinator"
          <> expertAgent config
        /\ getAgentCredentials config "Technical-Specialist"
           <> coordinatorAgent config)
  /\ (exists init,
        fetches (runTrace w config st)
        = [ (tokenUrl,
             {| method := "POST";
                headers := {[ "Content-Type" := "application/json" ]};
                body := VObj
                  [ ("orgName", VStr (orgName config));
                    ("clientId", VStr (clientId config));
                    ("agentId", VStr (agentId (coordinatorAgent config)));
                    ("agentSecret",
                     VStr (agentSecret (coordinatorAgent config))) ] |});
            (chatUrl, init) ]
        /\ headers init !! "x-agent-type" = Some "Support-Coordinator"
        /\ headers init !! "Authorization" = Some ("Bearer " +:+ T))
  /\ (exists result,
        results (after (runSimulation w config) st) = result :: results st
        /\ authUsed result = "Support-Coordinator credentials"
        /\ (forall reply,
              chatOutcome w config (VStr T) "Support-Coordinator"
                = Normal reply ->
              tokenReceived result = VStr T
              /\ agentType result = "Support-Coordinator"
              /\ statusCode result = snd reply)).
Proof.
  intros Hv Hcase Hagent Hf Hok Hj Htok HT.
  assert (Hcoord : getAgentCredentials config "Support-Coordinator"
                   = coordinatorAgent config).
  { unfold getAgentCredentials; cbn. by destruct (coordinatorAgent config). }
  assert (Hspec : getAgentCredentials config "Technical-Specialist"
                  = expertAgent config).
  { unfold getAgentCredentials; cbn. by destruct (expertAgent config). }
  assert (Hauth : authResult w config
                    (agentId (coordinatorAgent config))
                    (agentSecret (coordinatorAgent config))
                  = Normal (VStr T)).
  { rewrite (authResult_granted _ _ _ _ _ _ Hf Hok Hj). by rewrite Htok. }
  assert (Htruthy : truthy (VStr T) = true).
  { cbn. destruct (String.eqb T "") eqn:E; [|done].
    by apply String.eqb_eq in E. }
  pose proof (chatRequest_convertible w config (VStr T)
                "Support-Coordinator" T Htruthy eq_refl) as Hreq.
  split; [exact Hcoord|]. split; [exact Hspec|]. split; [|split].
  - intros Hne. rewrite Hcoord, Hspec. split; congruence.
  - eexists.
    rewrite runTrace_valid by done.
    rewrite Hcase, Hagent, caseTrace_correct, Hcoord.
    unfold pipelineTrace, chatTrace. rewrite Hauth, Hreq. cbn.
    split; [done|]. split; by simplify_map_eq.
  - exists (recorded w config st).
    rewrite runSimulation_valid by done. cbn. split; [done|].
    unfold recorded.
    rewrite Hcase, Hagent, caseResult_correct, Hcoord.
    unfold pipelineResult. rewrite Hauth.
    destruct (chatOutcome w config (VStr T) "Support-Coordinator")
      as [reply|e]; cbn.
    + split; [done|]. intros reply' [= <-]. done.
    + split; [done|]. intros reply' [=].
Qed.

(** C7, at the documented configuration and token. *)
Lemma matched_identity_coordinator_witness :
  getAgentCredentials exampleConfig "Support-Coordinator"
    = {| agentId := "coord-1"; agentSecret := "s1" |}
  /\ getAgentCredentials exampleConfig "Technical-Specialist"
     = {| agentId := "spec-1"; agentSecret := "s2" |}
  /\ (exists init,
        fetches (runTrace grantingWorld exampleConfig initialState)
        = [ (tokenUrl,
             {| method := "POST";
                headers := {[ "Content-Type" := "application/json" ]};
                body := VObj [ ("orgName", VStr "acme");
                               ("clientId", VStr "c1");
                               ("agentId", VStr "coord-1");
                               ("agentSecret", VStr "s1") ] |});
            (chatUrl, init) ]
        /\ headers init !! "x-agent-type" = Some "Support-Coordinator"
        /\ headers init !! "Authorization" = Some "Bearer T")
  /\ (exists result,
        results (after (runSimulation grantingWorld exampleConfig)
                   initialState) = [result]
        /\ authUsed result = "Support-Coordinator credentials").
Proof.
  assert (HT : "T" <> "") by discriminate.
  destruct (matched_identity_coordinator grantingWorld exampleConfig
              initialState
              {| status := 200;
                 json := Normal (VObj [("access_token", VStr "T")]) |}
              [("access_token", VStr "T")] "T"
              eq_refl eq_refl eq_refl eq_refl eq_refl eq_refl eq_refl HT)
    as (H1 & H2 & _ & H3 & result & H4 & H5 & _).
  split; [exact H1|]. split; [exact H2|]. split; [exact H3|].
  exists result. split; [exact H4 | exact H5].
Defined.

(** ** The history *)

Lemma handle_keeps_history a st :
  isClear a = false ->
  results st `suffix_of` results (after (handle a) st).
Proof.
  intros Hc. destruct a as [c|s|w config| |i]; try done.
  destruct (isConfigValid config) eqn:Hv.
  - cbn [handle]. rewrite runSimulation_valid by done. cbn.
    by apply suffix_cons_r.
  - cbn [handle]. unfold after. by rewrite runSimulation_invalid.
Qed.

Lemma afterAll_keeps_history acts st :
  forallb (fun a => negb (isClear a)) acts = true ->
  results st `suffix_of` results (afterAll acts st).
Proof.
  revert st. induction acts as [|a acts IH]; intros st Hall; [done|].
  cbn in Hall. apply andb_true_iff in Hall as [Ha Hall].
  cbn [afterAll]. etransitivity; [|by apply IH].
  apply handle_keeps_history. by apply negb_true_iff.
Qed.

Lemma afterAll_grows acts st :
  forallb isValidRun acts = true ->
  length (results (afterAll acts st))
  = (length acts + length (results st))%nat.
Proof.
  revert st. induction acts as [|a acts IH]; intros st Hall; [done|].
  cbn in Hall. apply andb_true_iff in Hall as [Ha Hall].
  cbn [afterAll]. rewrite IH by done.
  destruct a as [c|s|w config| |i]; try done.
  cbn [handle]. cbn in Ha. rewrite runSimulation_valid by done. cbn. lia.
Qed.

(** C8. The history is kept most recent first.  An invocation with a
    complete configuration, whether its pipeline returned or threw, puts
    its record in front of what was there; any number of such invocations
    lengthens the history by that number, no bound being applied;
    [clearResults] empties it; and as long as [clearResults] is not among
    the handlers run, everything the history held is still there, at its
    end and in the same order. *)
Theorem history_is_most_recent_first :
  (forall w config st,
     isConfigValid config = true ->
     results (after (runSimulation w config) st)
     = recorded w config st :: results st)
  /\ (forall acts st,
        forallb isValidRun acts = true ->
        length (results (afterAll acts st))
        = (length acts + length (results st))%nat)
  /\ (forall st, results (after clearResults st) = [])
  /\ (forall acts st,
        forallb (fun a => negb (isClear a)) acts = true ->
        results st `suffix_of` results (afterAll acts st))
  /\ (forall a st,
        results st <> [] -> results (after (handle a) st) = [] -> a = Clear).
Proof.
  split; [|split; [|split; [|split]]].
  - intros w config st Hv. by rewrite runSimulation_valid.
  - apply afterAll_grows.
  - done.
  - apply afterAll_keeps_history.
  - intros a st Hne Hempty.
    destruct (isClear a) eqn:Hc; [by destruct a|].
    pose proof (handle_keeps_history a st Hc) as Hs.
    rewrite Hempty in Hs. by apply suffix_nil_inv in Hs.
Qed.

(** C8, on a session: a granted run, then a run against an unreachable
    network with the specialist selected.  The failure is first, the
    earlier success second; clearing afterwards leaves nothing. *)
Lemma history_is_most_recent_first_witness :
  map statusCode
    (results (afterAll [ Run grantingWorld exampleConfig;
                         SelectAgent "Technical-Specialist";
                         Run offline exampleConfig ] initialState))
  = [500%Z; 200%Z]
  /\ length (results (afterAll [ Run grantingWorld exampleConfig;
                                 Run offline exampleConfig ] initialState))
     = 2%nat
  /\ results (after clearResults
                (afterAll [ Run grantingWorld exampleConfig ] initialState))
     = [].
Proof.
  destruct history_is_most_recent_first as (H1 & H2 & H3 & _).
  split; [|split].
  - cbn [afterAll handle].
    rewrite (H1 offline exampleConfig _ eq_refl).
    assert (Hsel : forall a st,
               results (after (setSelectedAgent a) st) = results st) by done.
    rewrite Hsel.
    rewrite (H1 grantingWorld exampleConfig initialState eq_refl).
    reflexivity.
  - exact (H2 [ Run grantingWorld exampleConfig;
                Run offline exampleConfig ] initialState eq_refl).
  - apply H3.
Defined.

(** ** What the failure record of the impersonation case says *)

(** C9. When the impersonation pipeline throws (authentication or
    dispatch failed), the stored record has [agentType] equal to the agent
    selected in the interface and [authUsed] equal to that agent followed by
    [" credentials"]; this is never the pair
    ([Technical-Specialist], [Support-Coordinator credentials]) that the
    success path of the same case stores. *)
Theorem impersonation_failure_record_follows_selection w config st error :
  isConfigValid config = true ->
  selectedCase st = WrongAgent ->
  caseResult w config WrongAgent (selectedAgent st) = Throw error ->
  (exists result,
     results (after (runSimulation w config) st) = result :: results st
     /\ caseType result = WrongAgent
     /\ agentType result = selectedAgent st
     /\ authUsed result = selectedAgent st +:+ " credentials"
     /\ (agentType result, authUsed result)
        <> ("Technical-Specialist", "Support-Coordinator credentials"))
  /\ (forall w' result',
        caseResult w' config WrongAgent (selectedAgent st)
          = Normal result' ->
        agentType result' = "Technical-Specialist"
        /\ authUsed result' = "Support-Coordinator credentials").
Proof.
  intros Hv Hcase Hthrow. split.
  - exists (recorded w config st).
    rewrite runSimulation_valid by done. cbn.
    unfold recorded. rewrite Hcase, Hthrow. cbn.
    repeat split.
    intros [= Hagent Hauth]. rewrite Hagent in Hauth. discriminate Hauth.
  - intros w' result'. rewrite caseResult_wrong. unfold pipelineResult.
    destruct (authResult _ _ _ _) as [token|e]; [|done].
    destruct (chatOutcome _ _ _ _) as [reply|e]; [|done].
    by intros [= <-].
Qed.

(** C9, with the coordinator selected and the token endpoint refusing. *)
Lemma impersonation_failure_record_follows_selection_witness :
  exists result,
    results (after (runSimulation explainedRefusal exampleConfig)
               (impersonating "Support-Coordinator")) = [result]
    /\ caseType result = WrongAgent
    /\ agentType result = "Support-Coordinator"
    /\ authUsed result = "Support-Coordinator credentials"
    /\ (agentType result, authUsed result)
       <> ("Technical-Specialist", "Support-Coordinator credentials").
Proof.
  exact (proj1 (impersonation_failure_record_follows_selection
                  explainedRefusal exampleConfig
                  (impersonating "Support-Coordinator")
                  (ErrorObj "invalid_client") eq_refl eq_refl eq_refl)).
Defined.

(** ** A falsy token is no token *)

Lemma sendChatRequest_sent w config token agentType st init :
  snd (sendChatRequest w config token agentType st)
    = extend st [EvFetch "/api/chat" init] ->
  chatRequest w config token agentType = Normal init.
Proof.
  rewrite (emits_sendChatRequest w config token agentType st).
  cbv beta iota delta [snd]. unfold extend, chatTrace.
  intros [= H]. apply app_inv_head in H.
  destruct (chatRequest w config token agentType); by inversion H.
Qed.

(** C10, refuted as stated: a truthy token need not put an
    [Authorization] header on the wire.  Dispatching with the parsed
    object [{ toString: 1 }] as the token throws while the header is being
    built, and no request is sent at all. *)
Lemma truthy_token_without_header :
  truthy (VObj [("toString", VNum "1")]) = true
  /\ sendChatRequest grantingWorld exampleConfig
       (VObj [("toString", VNum "1")]) "Support-Coordinator" initialState
     = (Throw (ErrorObj "Cannot convert object to primitive value"),
        initialState)
  /\ ~ authorizationIffTruthy.
Proof.
  split; [reflexivity|]. split; [reflexivity|].
  intros H.
  destruct (proj2 (H grantingWorld exampleConfig
                     (VObj [("toString", VNum "1")]) "Support-Coordinator")
              eq_refl) as (init & Hsent & _).
  discriminate Hsent.
Qed.

(** C10, amended.  A request sent by a dispatch call carries an
    [Authorization] header exactly when the token of the call is truthy;
    the request is sent for every token that is falsy or converts to a
    string, and a truthy token that does not convert (a parsed object
    with a [toString] entry of its own) makes the call throw before
    anything is sent.  When the token endpoint answers with success and an
    object whose [access_token] is the empty string or is missing, an
    authenticated case dispatches, after its token request, the very
    request the unauthenticated case dispatches for the same claimed agent
    type: one with the three fixed headers and no [Authorization]. *)
Theorem authorization_header_iff_truthy_token :
  (forall w config token agentType st init,
     snd (sendChatRequest w config token agentType st)
       = extend st [EvFetch "/api/chat" init] ->
     (is_Some (headers init !! "Authorization") <-> truthy token = true))
  /\ (forall w config token agentType st,
        truthy token = false \/ is_Some (toString token) ->
        exists init,
          snd (sendChatRequest w config token agentType st)
          = extend st [EvFetch "/api/chat" init])
  /\ (forall w config token agentType st,
        truthy token = true ->
        toString token = None ->
        sendChatRequest w config token agentType st
        = (Throw (ErrorObj (conversionErrorMessage w token)), st))
  /\ (forall w config st r fields,
        isConfigValid config = true ->
        selectedCase st <> NoAuth ->
        fetch w tokenUrl
          (tokenRequest config (agentId (authenticatesWith config st))
             (agentSecret (authenticatesWith config st))) = Normal r ->
        ok r = true ->
        json r = Normal (VObj fields) ->
        assoc "access_token" fields = VStr ""
        \/ assoc "access_token" fields = VUndefined ->
        exists init,
          fetches (runTrace w config st)
          = [ (tokenUrl,
               tokenRequest config (agentId (authenticatesWith config st))
                 (agentSecret (authenticatesWith config st)));
              (chatUrl, init) ]
          /\ headers init !! "Authorization" = None
          /\ dom (headers init)
             = ({[ "Content-Type"; "x-agent-type"; "x-target-url" ]}
                : gset string)
          /\ headers init !! "x-agent-type" = Some (claims config st)
          /\ fetches (runTrace w config (unauthenticated (claims config st)))
             = [ (chatUrl, init) ]).
Proof.
  split; [|split; [|split]].
  - intros w config token agentType st init Hsent.
    apply sendChatRequest_sent in Hsent.
    destruct (chatRequest_built _ _ _ _ _ Hsent) as (_ & _ & _ & _ & Ha & Hc).
    rewrite Ha. destruct (truthy token); [|by split; [intros []|]].
    split; [done|]. intros _.
    destruct (Hc eq_refl) as [text ->]. by eexists.
  - intros w config token agentType st Htok.
    rewrite (emits_sendChatRequest w config token agentType st).
    cbv beta iota delta [snd]. unfold chatTrace.
    destruct (truthy token) eqn:Ht.
    + destruct Htok as [Hf | [text Hs]]; [done|].
      rewrite (chatRequest_convertible _ _ _ _ text) by done. by eexists.
    + rewrite chatRequest_falsy by done. by eexists.
  - intros w config token agentType st Ht Hs.
    rewrite (emits_sendChatRequest w config token agentType st).
    unfold chatOutcome, chatTrace.
    rewrite chatRequest_unconvertible by done. by rewrite extend_nil.
  - intros w config st r fields Hv Hcase Hf Hok Hj Htok.
    exists (chatInit {[ "Content-Type" := "application/json";
                        "x-agent-type" := claims config st;
                        "x-target-url" := targetUrl config ]}
                     (claims config st)).
    assert (Hfalsy : truthy (assoc "access_token" fields) = false).
    { by destruct Htok as [-> | ->]. }
    pose proof (authResult_granted _ _ _ _ _ _ Hf Hok Hj) as Hauth.
    split; [|split; [|split; [|split]]].
    + rewrite runTrace_valid by done.
      unfold authenticatesWith, claims in *.
      destruct (selectedCase st); [| |done].
      * rewrite caseTrace_correct. unfold pipelineTrace, chatTrace.
        rewrite Hauth. rewrite chatRequest_falsy by done. by cbn.
      * rewrite caseTrace_wrong. unfold pipelineTrace, chatTrace.
        change (authResult w config (agentId (coordinatorAgent config))
                  (agentSecret (coordinatorAgent config))
                = Normal (assoc "access_token" fields)) in Hauth.
        rewrite Hauth. rewrite chatRequest_falsy by done. by cbn.
    + done.
    + cbn. rewrite !dom_insert_L, dom_singleton_L. set_solver.
    + cbn. by simplify_map_eq.
    + rewrite runTrace_valid by done. cbn. rewrite caseTrace_noAuth.
      unfold claims. by destruct (selectedCase st).
Qed.

(** C10 amended, at the example configuration against a token endpoint
    that hands out the empty string, the coordinator being selected. *)
Lemma authorization_header_iff_truthy_token_witness :
  exists init,
    fetches (runTrace emptyTokenWorld exampleConfig initialState)
    = [ (tokenUrl, tokenRequest exampleConfig "coord-1" "s1");
        (chatUrl, init) ]
    /\ headers init !! "Authorization" = None
    /\ dom (headers init)
       = ({[ "Content-Type"; "x-agent-type"; "x-target-url" ]}
          : gset string)
    /\ headers init !! "x-agent-type" = Some "Support-Coordinator"
    /\ fetches (runTrace emptyTokenWorld exampleConfig
                  (unauthenticated "Support-Coordinator"))
       = [ (chatUrl, init) ].
Proof.
  assert (Hcase : selectedCase initialState <> NoAuth) by discriminate.
  exact (proj2 (proj2 (proj2 authorization_header_iff_truthy_token))
           emptyTokenWorld exampleConfig initialState
           {| status := 200;
              json := Normal (VObj [("access_token", VStr "")]) |}
           [("access_token", VStr "")]
           eq_refl Hcase eq_refl eq_refl eq_refl (or_introl eq_refl)).
Defined.

(** * Further properties of the client *)

(** ** The authenticator *)

(** X1. [authenticateAgent] makes a single attempt: from any state it
    issues exactly one [fetch], the POST of the four fields to the token
    route, and it writes to the console exactly when it throws, the value
    logged being the one it rethrows.  It changes nothing else of the
    state. *)
Theorem authenticateAgent_single_attempt w config agentId agentSecret st :
  exists c,
    authenticateAgent w config agentId agentSecret st
    = (c,
       extend st
         (EvFetch "/api/auth/agent-token"
            {| method := "POST";
               headers := {[ "Content-Type" := "application/json" ]};
               body := VObj [ ("orgName", VStr (orgName config));
                              ("clientId", VStr (clientId config));
                              ("agentId", VStr agentId);
                              ("agentSecret", VStr agentSecret) ] |}
          :: match c with
             | Normal _ => []
             | Throw e => [EvConsoleError "Authentication error:" e]
             end)).
Proof.
  exists (authResult w config agentId agentSecret).
  apply emits_authenticateAgent.
Qed.

(** X2. A token is only ever returned from a success answer: when
    [authenticateAgent] completes normally, the token route answered with a
    status in 200-299 and a body that parsed to something other than
    [null], and the token is that body's [access_token], passed through as
    it is ([undefined] when the body has none). *)
Theorem authenticateAgent_token_only_from_success
    w config agentId agentSecret token :
  authResult w config agentId agentSecret = Normal token ->
  exists r v,
    fetch w tokenUrl (tokenRequest config agentId agentSecret) = Normal r
    /\ (200 <= status r <= 299)%Z
    /\ json r = Normal v
    /\ v <> VNull /\ v <> VUndefined
    /\ token = field v "access_token".
Proof.
  unfold authResult, authenticateAgent, tokenUrl. run_monad.
  destruct (fetch w _ _) as [r|e]; cbn; [|done].
  unfold ok. destruct (200 <=? status r)%Z eqn:E1,
               (status r <=? 299)%Z eqn:E2; cbn.
  2-4: destruct (json r) as [[]|e]; cbn; try done;
       by destruct (newError w _).
  destruct (json r) as [v|e] eqn:Hj; cbn; [|done].
  intros Htok. exists r, v.
  split; [done|]. split; [lia|]. split; [done|].
  destruct v; cbn in Htok; try done; by inversion Htok.
Qed.

Lemma authenticateAgent_token_only_from_success_witness :
  exists r v,
    fetch grantingWorld tokenUrl (tokenRequest exampleConfig "coord-1" "s1")
    = Normal r
    /\ (200 <= status r <= 299)%Z
    /\ json r = Normal v
    /\ v <> VNull /\ v <> VUndefined
    /\ VStr "T" = field v "access_token".
Proof.
  exact (authenticateAgent_token_only_from_success grantingWorld
           exampleConfig "coord-1" "s1" (VStr "T") eq_refl).
Defined.

(** X3. On a non-success answer whose body is an object with a truthy
    [error], the reason is that value converted to a string, whatever its
    type: a number gives its text and a structured error object gives
    ["[object Object]"].  When the value cannot be converted, as for an
    object with a [toString] entry of its own, what the authenticator
    throws is the conversion's [TypeError] instead. *)
Theorem authenticateAgent_reason_is_stringified
    w config agentId agentSecret r fields :
  fetch w tokenUrl (tokenRequest config agentId agentSecret) = Normal r ->
  ok r = false ->
  json r = Normal (VObj fields) ->
  truthy (assoc "error" fields) = true ->
  (forall text,
     toString (assoc "error" fields) = Some text ->
     authResult w config agentId agentSecret = Throw (ErrorObj text))
  /\ (toString (assoc "error" fields) = None ->
      authResult w config agentId agentSecret
      = Throw (ErrorObj (conversionErrorMessage w (assoc "error" fields))))
  /\ (forall repr,
        assoc "error" fields = VNum repr ->
        authResult w config agentId agentSecret = Throw (ErrorObj repr))
  /\ (forall inner,
        assoc "error" fields = VObj inner ->
        authResult w config agentId agentSecret
        = Throw (ErrorObj (if hasOwn "toString" inner
                           then conversionErrorMessage w (VObj inner)
                           else "[object Object]"))).
Proof.
  intros Hf Hok Hj Ht.
  rewrite (authResult_rejected _ _ _ _ _ _ Hf Hok Hj).
  unfold js_or. rewrite Ht.
  assert (Hnew : newError w (assoc "error" fields)
                 = match toString (assoc "error" fields) with
                   | Some text => Normal (ErrorObj text)
                   | None =>
                       Throw (ErrorObj
                                (conversionErrorMessage w
                                   (assoc "error" fields)))
                   end).
  { unfold newError, convert.
    destruct (assoc "error" fields); try done.
    all: by destruct (toString _). }
  rewrite Hnew. split; [|split; [|split]].
  - by intros text ->.
  - by intros ->.
  - by intros repr ->.
  - intros inner ->. cbn. by destruct (hasOwn "toString" inner).
Qed.

Lemma authenticateAgent_reason_is_stringified_witness :
  authResult structuredRefusal exampleConfig "coord-1" "s1"
    = Throw (ErrorObj "[object Object]")
  /\ authResult shadowingRefusal exampleConfig "coord-1" "s1"
     = Throw (ErrorObj "Cannot convert object to primitive value").
Proof.
  split.
  - destruct (authenticateAgent_reason_is_stringified structuredRefusal
                exampleConfig "coord-1" "s1"
                {| status := 401;
                   json := Normal
                     (VObj [("error", VObj [("code", VNum "7")])]) |}
                [("error", VObj [("code", VNum "7")])]
                eq_refl eq_refl eq_refl eq_refl) as (_ & _ & _ & H).
    exact (H [("code", VNum "7")] eq_refl).
  - destruct (authenticateAgent_reason_is_stringified shadowingRefusal
                exampleConfig "coord-1" "s1"
                {| status := 401;
                   json := Normal
                     (VObj [("error", VObj [("toString", VNum "1")])]) |}
                [("error", VObj [("toString", VNum "1")])]
                eq_refl eq_refl eq_refl eq_refl) as (_ & H & _).
    exact (H eq_refl).
Defined.

(** X4. A body that is the JSON literal [null] makes the property read
    fail: the authenticator throws the engine's [TypeError], for the key
    [error] on a non-success answer and for [access_token] on a success
    answer.  Any other body that is not an object (a string, a number, an
    array) has neither key: a non-success answer then gives the generic
    reason, a success answer gives the token [undefined] without any
    failure. *)
Theorem authenticateAgent_non_object_body w config agentId agentSecret r :
  fetch w tokenUrl (tokenRequest config agentId agentSecret) = Normal r ->
  (json r = Normal VNull ->
     authResult w config agentId agentSecret
     = Throw (ErrorObj (typeErrorMessage w VNull
                          (if ok r then "access_token" else "error"))))
  /\ (forall v,
        json r = Normal v ->
        v <> VNull -> v <> VUndefined -> field v "error" = VUndefined ->
        ok r = false ->
        authResult w config agentId agentSecret
        = Throw (ErrorObj "Failed to authenticate"))
  /\ (forall v,
        json r = Normal v ->
        v <> VNull -> v <> VUndefined ->
        field v "access_token" = VUndefined ->
        ok r = true ->
        authResult w config agentId agentSecret = Normal VUndefined).
Proof.
  intros Hf. unfold authResult, authenticateAgent. run_monad.
  unfold tokenUrl in Hf. rewrite Hf. cbn.
  split; [|split].
  - intros ->. by destruct (ok r).
  - intros v -> Hn Hu Hfield ->. cbn.
    destruct v; cbn in *; try done. by rewrite Hfield.
  - intros v -> Hn Hu Hfield ->. cbn.
    destruct v; cbn in *; try done. by rewrite Hfield.
Qed.

Lemma authenticateAgent_non_object_body_witness :
  authResult nullRefusal exampleConfig "coord-1" "s1"
    = Throw (ErrorObj "Cannot read properties of null (reading 'error')").
Proof.
  destruct (authenticateAgent_non_object_body nullRefusal exampleConfig
              "coord-1" "s1" {| status := 401; json := Normal VNull |}
              eq_refl) as [H _].
  exact (H eq_refl).
Defined.

(** ** The dispatcher *)

(** X5. The header object of a chat request: for a falsy token it has
    exactly the keys [Content-Type], [x-agent-type] and [x-target-url]; for
    a truthy token that converts to a string it has those and
    [Authorization], whose value is ["Bearer "] followed by the converted
    token; a truthy token that does not convert makes the assignment throw
    the conversion's [TypeError], and there is no header object to send.
    The three fixed keys carry the JSON content type, the claimed agent
    type and the configured target. *)
Theorem chatHeaders_keys w config token agentType :
  (forall headers,
     chatHeaders w config token agentType = Normal headers ->
     dom headers
       = (if truthy token
          then {[ "Authorization"; "Content-Type"; "x-agent-type";
                  "x-target-url" ]}
          else {[ "Content-Type"; "x-agent-type"; "x-target-url" ]}
          : gset string)
     /\ headers !! "Content-Type" = Some "application/json"
     /\ headers !! "x-agent-type" = Some agentType
     /\ headers !! "x-target-url" = Some (targetUrl config)
     /\ headers !! "Authorization"
        = (if truthy token
           then (fun text => "Bearer " +:+ text) <$> toString token
           else None)
     /\ (truthy token = true -> is_Some (toString token)))
  /\ (truthy token = false \/ is_Some (toString token) ->
      exists headers, chatHeaders w config token agentType = Normal headers)
  /\ (truthy token = true ->
      toString token = None ->
      chatHeaders w config token agentType
      = Throw (ErrorObj (conversionErrorMessage w token))).
Proof.
  unfold chatHeaders, convert.
  destruct (truthy token) eqn:Ht; cbv zeta.
  - destruct (toString token) as [text|] eqn:Hs.
    + split; [|split; [by eexists | done]].
      intros headers [= <-].
      split; [rewrite !dom_insert_L, dom_singleton_L; set_solver|].
      repeat split; try by simplify_map_eq.
    + split; [done|]. split; [|done].
      by intros [Hf | [text Htext]].
  - split; [|split; [by eexists | done]].
    intros headers [= <-].
    split; [rewrite !dom_insert_L, dom_singleton_L; set_solver|].
    repeat split; by simplify_map_eq.
Qed.

(** X5, for the number 1e21 as the token and for an object that shadows
    [toString]. *)
Lemma chatHeaders_keys_witness :
  (exists headers,
     chatHeaders grantingWorld exampleConfig (VNum "1e+21")
       "Support-Coordinator" = Normal headers
     /\ headers !! "Authorization" = Some "Bearer 1e+21")
  /\ chatHeaders grantingWorld exampleConfig
       (VObj [("toString", VNum "1")]) "Support-Coordinator"
     = Throw (ErrorObj "Cannot convert object to primitive value").
Proof.
  destruct (chatHeaders_keys grantingWorld exampleConfig (VNum "1e+21")
              "Support-Coordinator") as (H1 & H2 & _).
  destruct (H2 (or_intror (ex_intro _ "1e+21" eq_refl))) as [headers Hh].
  destruct (H1 headers Hh) as (_ & _ & _ & _ & Ha & _).
  split; [by exists headers|].
  destruct (chatHeaders_keys grantingWorld exampleConfig
              (VObj [("toString", VNum "1")]) "Support-Coordinator")
    as (_ & _ & H3).
  exact (H3 eq_refl eq_refl).
Defined.

(** X6. [sendChatRequest] writes nothing to the console and sends at
    most one request.  When its token is truthy and does not convert to a
    string it throws the conversion's [TypeError] before sending anything;
    for every other token it sends exactly one request, to the chat
    route, and then throws exactly when that [fetch] rejects or the
    answer's body does not parse: an answer with a parsable body is
    returned with its status whatever the status is, an HTTP error
    included. *)
Theorem sendChatRequest_throws_iff w config token agentType st :
  (truthy token = true ->
   toString token = None ->
   sendChatRequest w config token agentType st
   = (Throw (ErrorObj (conversionErrorMessage w token)), st))
  /\ (truthy token = false \/ is_Some (toString token) ->
      exists init,
        snd (sendChatRequest w config token agentType st)
        = extend st [EvFetch "/api/chat" init]
        /\ method init = "POST"
        /\ headers init !! "x-agent-type" = Some agentType
        /\ (forall e,
              fst (sendChatRequest w config token agentType st) = Throw e
              <-> fetch w "/api/chat" init = Throw e
                  \/ exists r,
                       fetch w "/api/chat" init = Normal r
                       /\ json r = Throw e)
        /\ (forall reply,
              fst (sendChatRequest w config token agentType st)
              = Normal reply
              <-> exists r,
                    fetch w "/api/chat" init = Normal r
                    /\ json r = Normal (fst reply)
                    /\ status r = snd reply)).
Proof.
  rewrite !(emits_sendChatRequest w config token agentType st).
  cbv beta iota delta [fst snd]. unfold chatOutcome, chatTrace. split.
  - intros Ht Hs. rewrite chatRequest_unconvertible by done.
    by rewrite extend_nil.
  - intros Htok.
    assert (Hreq : exists init,
               chatRequest w config token agentType = Normal init).
    { destruct (truthy token) eqn:Ht.
      - destruct Htok as [Hf | [text Hs]]; [done|].
        rewrite (chatRequest_convertible _ _ _ _ text) by done. by eexists.
      - rewrite chatRequest_falsy by done. by eexists. }
    destruct Hreq as [init Hreq]. exists init.
    destruct (chatRequest_built _ _ _ _ _ Hreq) as (Hm & _ & Hx & _).
    rewrite Hreq. split; [done|]. split; [done|]. split; [done|].
    destruct (fetch w "/api/chat" init) as [r|e0].
    + destruct (json r) as [data|e0] eqn:Hj; split.
      * intros e. split; [done|].
        intros [H | (r' & [= <-] & H)]; [done|]. congruence.
      * intros [data' s']. cbn. split.
        -- intros [= <- <-]. by exists r.
        -- intros (r' & [= <-] & Hd & Hs). rewrite Hj in Hd. congruence.
      * intros e. split.
        -- intros [= <-]. right. by exists r.
        -- intros [H | (r' & [= <-] & H)]; [done|]. congruence.
      * intros reply. split; [done|].
        intros (r' & [= <-] & Hd & _). congruence.
    + split.
      * intros e. split.
        -- intros [= <-]. by left.
        -- intros [[= <-] | (r' & H & _)]; done.
      * intros reply. split; [done|]. by intros (r' & H & _).
Qed.

(** X6, for a token that shadows [toString], against a gateway that
    would answer. *)
Lemma sendChatRequest_throws_iff_witness :
  sendChatRequest grantingWorld exampleConfig
    (VObj [("toString", VNum "1")]) "Support-Coordinator" initialState
  = (Throw (ErrorObj "Cannot convert object to primitive value"),
     initialState).
Proof.
  exact (proj1 (sendChatRequest_throws_iff grantingWorld exampleConfig
                  (VObj [("toString", VNum "1")]) "Support-Coordinator"
                  initialState) eq_refl eq_refl).
Defined.

(** ** The runner *)

Lemma fetches_chatTrace w config token agentType :
  fetches (chatTrace w config token agentType)
  = match chatRequest w config token agentType with
    | Normal init => [(chatUrl, init)]
    | Throw _ => []
    end.
Proof. unfold chatTrace. by destruct (chatRequest _ _ _ _). Qed.

Lemma fetches_pipelineTrace w config agentId agentSecret claimed :
  fetches (pipelineTrace w config agentId agentSecret claimed)
  = (tokenUrl, tokenRequest config agentId agentSecret)
    :: match authResult w config agentId agentSecret with
       | Normal token =>
           match chatRequest w config token claimed with
           | Normal init => [(chatUrl, init)]
           | Throw _ => []
           end
       | Throw _ => []
       end.
Proof.
  unfold pipelineTrace. cbn. rewrite fetches_app, fetches_consoleTail.
  destruct (authResult _ _ _ _); [|done]. cbn.
  by rewrite fetches_chatTrace.
Qed.

(** The requests of an invocation, case by case. *)
Lemma fetches_runTrace w config st :
  fetches (runTrace w config st)
  = if isConfigValid config then
      match selectedCase st with
      | NoAuth =>
          [(chatUrl,
            chatInit {[ "Content-Type" := "application/json";
                        "x-agent-type" := selectedAgent st;
                        "x-target-url" := targetUrl config ]}
                     (selectedAgent st))]
      | _ =>
          (tokenUrl,
           tokenRequest config (agentId (authenticatesWith config st))
             (agentSecret (authenticatesWith config st)))
          :: match authResult w config
                     (agentId (authenticatesWith config st))
                     (agentSecret (authenticatesWith config st)) with
             | Normal token =>
                 match chatRequest w config token (claims config st) with
                 | Normal init => [(chatUrl, init)]
                 | Throw _ => []
                 end
             | Throw _ => []
             end
      end
    else [].
Proof.
  destruct (isConfigValid config) eqn:Hv.
  - rewrite runTrace_valid by done.
    unfold authenticatesWith, claims.
    destruct (selectedCase st).
    + by rewrite caseTrace_correct, fetches_pipelineTrace.
    + by rewrite caseTrace_wrong, fetches_pipelineTrace.
    + by rewrite caseTrace_noAuth.
  - by rewrite runTrace_invalid.
Qed.

(** X7. Whatever the configuration, the selection and the network do,
    an invocation of [runSimulation] issues at most two requests; each is a
    POST with a JSON content type whose address is one of the two fixed
    routes, ["/api/auth/agent-token"] and ["/api/chat"], the configured
    target being passed along as the [x-target-url] header of the chat
    request; and a token request, when there is one, comes first. *)
Theorem runSimulation_requests_stay_on_the_two_routes w config st :
  (length (fetches (runTrace w config st)) <= 2)%nat
  /\ Forall (fun p =>
               (p.1 = "/api/auth/agent-token" \/ p.1 = "/api/chat")
               /\ method p.2 = "POST"
               /\ headers p.2 !! "Content-Type" = Some "application/json"
               /\ (p.1 = "/api/chat" ->
                   headers p.2 !! "x-target-url" = Some (targetUrl config)))
            (fetches (runTrace w config st))
  /\ (forall i init,
        fetches (runTrace w config st) !! i
          = Some ("/api/auth/agent-token", init) ->
        i = 0%nat).
Proof.
  rewrite fetches_runTrace.
  assert (Hchat : forall token agent init,
             chatRequest w config token agent = Normal init ->
             (fun p : string * RequestInit =>
                (p.1 = "/api/auth/agent-token" \/ p.1 = "/api/chat")
                /\ method p.2 = "POST"
                /\ headers p.2 !! "Content-Type" = Some "application/json"
                /\ (p.1 = "/api/chat" ->
                    headers p.2 !! "x-target-url" = Some (targetUrl config)))
               (chatUrl, init)).
  { intros token agent init Hreq. cbn.
    destruct (chatRequest_built _ _ _ _ _ Hreq) as (H1 & H2 & _ & H4 & _).
    repeat split; auto. }
  destruct (isConfigValid config); [|by repeat split; [cbn; lia|..]].
  destruct (selectedCase st).
  3: { split; [cbn; lia|]. split.
       - constructor; [|constructor].
         apply (Hchat VNull (selectedAgent st)). by apply chatRequest_falsy.
       - by intros [|[|i]] init. }
  all: destruct (authResult _ _ _ _) as [token|e].
  all: try destruct (chatRequest w config token _) as [init|e] eqn:Hreq.
  all: split; [cbn; lia|]; split.
  all: try (repeat constructor; try (eapply Hchat; eassumption);
            cbn; by auto).
  all: by intros [|[|[|i]]] init'.
Qed.

(** X7, for a granted matched-identity run at the example
    configuration. *)
Lemma runSimulation_requests_stay_on_the_two_routes_witness :
  (length (fetches (runTrace grantingWorld exampleConfig initialState))
   <= 2)%nat
  /\ headers (chatInit {[ "Content-Type" := "application/json";
                          "x-agent-type" := "Support-Coordinator";
                          "x-target-url" := "https://gw.example/chat";
                          "Authorization" := "Bearer T" ]}
                       "Support-Coordinator")
       !! "x-target-url" = Some "https://gw.example/chat".
Proof.
  destruct (runSimulation_requests_stay_on_the_two_routes grantingWorld
              exampleConfig initialState) as (H1 & H2 & _).
  split; [exact H1|].
  pose proof (proj1 (Forall_lookup _ _) H2 1%nat
                ("/api/chat",
                 chatInit {[ "Content-Type" := "application/json";
                             "x-agent-type" := "Support-Coordinator";
                             "x-target-url" := "https://gw.example/chat";
                             "Authorization" := "Bearer T" ]}
                          "Support-Coordinator")
                eq_refl) as (_ & _ & _ & H).
  exact (H eq_refl).
Defined.

Lemma recorded_pipeline w config st :
  selectedCase st <> NoAuth ->
  recorded w config st
  = match authResult w config (agentId (authenticatesWith config st))
            (agentSecret (authenticatesWith config st)) with
    | Throw e => errorResult w (selectedCase st) (selectedAgent st) e
    | Normal token =>
        match chatOutcome w config token (claims config st) with
        | Throw e => errorResult w (selectedCase st) (selectedAgent st) e
        | Normal reply =>
            {| caseType := selectedCase st;
               agentType := claims config st;
               authUsed := match selectedCase st with
                           | WrongAgent => "Support-Coordinator credentials"
                           | _ => selectedAgent st +:+ " credentials"
                           end;
               tokenReceived := token;
               response := fst reply;
               statusCode := snd reply;
               timestamp := now w |}
        end
    end.
Proof.
  intros Hcase. unfold recorded, authenticatesWith, claims.
  destruct (selectedCase st); [| |done].
  - rewrite caseResult_correct. unfold pipelineResult.
    destruct (authResult _ _ _ _) as [token|e]; [|done].
    by destruct (chatOutcome _ _ _ _).
  - rewrite caseResult_wrong. unfold pipelineResult. cbn.
    destruct (authResult _ _ _ _) as [token|e]; [|done].
    by destruct (chatOutcome _ _ _ _).
Qed.

(** X8. A failed authentication never reaches the gateway: when the
    authenticator throws in one of the two authenticated cases, the only
    request of the invocation is the token request, the fault is logged
    once, and the record stored is the synthesized one carrying the
    authenticator's error text. *)
Theorem failed_authentication_never_dispatches w config st e :
  isConfigValid config = true ->
  selectedCase st <> NoAuth ->
  authResult w config (agentId (authenticatesWith config st))
    (agentSecret (authenticatesWith config st)) = Throw e ->
  runTrace w config st
  = [ EvFetch "/api/auth/agent-token"
        (tokenRequest config (agentId (authenticatesWith config st))
           (agentSecret (authenticatesWith config st)));
      EvConsoleError "Authentication error:" e ]
  /\ results (after (runSimulation w config) st)
     = {| caseType := selectedCase st;
          agentType := selectedAgent st;
          authUsed := selectedAgent st +:+ " credentials";
          tokenReceived := VNull;
          response := VObj [("error", VStr (errorText e))];
          statusCode := 500;
          timestamp := now w |} :: results st.
Proof.
  intros Hv Hcase Hauth. split.
  - rewrite runTrace_valid by done.
    unfold authenticatesWith in Hauth |- *.
    destruct (selectedCase st); [| |done].
    + rewrite caseTrace_correct. unfold pipelineTrace. by rewrite Hauth.
    + rewrite caseTrace_wrong. unfold pipelineTrace.
      cbn in Hauth. by rewrite Hauth.
  - rewrite runSimulation_valid by done. cbn. f_equal.
    rewrite recorded_pipeline by done. rewrite Hauth.
    unfold errorResult. by destruct (selectedCase st).
Qed.

Lemma failed_authentication_never_dispatches_witness :
  runTrace explainedRefusal exampleConfig initialState
  = [ EvFetch "/api/auth/agent-token"
        (tokenRequest exampleConfig "coord-1" "s1");
      EvConsoleError "Authentication error:" (ErrorObj "invalid_client") ]
  /\ map response
       (results (after (runSimulation explainedRefusal exampleConfig)
                   initialState))
     = [ VObj [("error", VStr "invalid_client")] ].
Proof.
  assert (Hcase : selectedCase initialState <> NoAuth) by discriminate.
  destruct (failed_authentication_never_dispatches explainedRefusal
              exampleConfig initialState (ErrorObj "invalid_client")
              eq_refl Hcase eq_refl) as [H1 H2].
  split; [exact H1|]. rewrite H2. reflexivity.
Defined.

(** X9. When authentication succeeded but the dispatch then throws an
    [Error] with message [m] (the token does not convert, the gateway
    cannot be reached, or its answer is not JSON), the record stored is the
    synthesized one: status 500 whatever the gateway's own status was,
    [{ error: m }] as the response, and a [null] token although one had
    been issued.  The chat request was sent unless it is the conversion of
    the token that threw, in which case the token request is the only
    request of the run. *)
Theorem dispatch_failure_drops_the_token w config st token message :
  isConfigValid config = true ->
  selectedCase st <> NoAuth ->
  authResult w config (agentId (authenticatesWith config st))
    (agentSecret (authenticatesWith config st)) = Normal token ->
  chatOutcome w config token (claims config st)
    = Throw (ErrorObj message) ->
  results (after (runSimulation w config) st)
  = {| caseType := selectedCase st;
       agentType := selectedAgent st;
       authUsed := selectedAgent st +:+ " credentials";
       tokenReceived := VNull;
       response := VObj [("error", VStr message)];
       statusCode := 500;
       timestamp := now w |} :: results st
  /\ (truthy token = true ->
      toString token = None ->
      message = conversionErrorMessage w token
      /\ fetches (runTrace w config st)
         = [ (tokenUrl,
              tokenRequest config (agentId (authenticatesWith config st))
                (agentSecret (authenticatesWith config st))) ])
  /\ (truthy token = false \/ is_Some (toString token) ->
      exists init,
        fetches (runTrace w config st)
        = [ (tokenUrl,
             tokenRequest config (agentId (authenticatesWith config st))
               (agentSecret (authenticatesWith config st)));
            ("/api/chat", init) ]
        /\ headers init !! "x-agent-type" = Some (claims config st)
        /\ (fetch w "/api/chat" init = Throw (ErrorObj message)
            \/ exists r,
                 fetch w "/api/chat" init = Normal r
                 /\ json r = Throw (ErrorObj message))).
Proof.
  intros Hv Hcase Hauth Hchat. split; [|split].
  - rewrite runSimulation_valid by done. cbn. f_equal.
    rewrite recorded_pipeline by done. rewrite Hauth, Hchat.
    unfold errorResult. by destruct (selectedCase st).
  - intros Ht Hs. unfold chatOutcome in Hchat.
    rewrite fetches_runTrace, Hv, Hauth.
    rewrite chatRequest_unconvertible in Hchat |- * by done.
    split; [by inversion Hchat|]. by destruct (selectedCase st).
  - intros Htok.
    assert (Hreq : exists init,
               chatRequest w config token (claims config st) = Normal init).
    { destruct (truthy token) eqn:Ht.
      - destruct Htok as [Hf | [text Hs]]; [done|].
        rewrite (chatRequest_convertible _ _ _ _ text) by done. by eexists.
      - rewrite chatRequest_falsy by done. by eexists. }
    destruct Hreq as [init Hreq]. exists init.
    destruct (chatRequest_built _ _ _ _ _ Hreq) as (_ & _ & Hx & _).
    rewrite fetches_runTrace, Hv, Hauth, Hreq.
    split; [by destruct (selectedCase st)|]. split; [done|].
    unfold chatOutcome in Hchat. rewrite Hreq in Hchat.
    destruct (fetch w "/api/chat" init) as [r|e]; [|left; congruence].
    right. exists r. split; [done|].
    destruct (json r); congruence.
Qed.

Lemma dispatch_failure_drops_the_token_witness :
  results (after (runSimulation garbledGateway exampleConfig) initialState)
  = [ {| caseType := CorrectAgent;
         agentType := "Support-Coordinator";
         authUsed := "Support-Coordinator credentials";
         tokenReceived := VNull;
         response := VObj [("error", VStr "Unexpected token '<'")];
         statusCode := 500;
         timestamp := 1700000000000 |} ]
  /\ results (after (runSimulation shadowingTokenWorld exampleConfig)
                initialState)
     = [ {| caseType := CorrectAgent;
            agentType := "Support-Coordinator";
            authUsed := "Support-Coordinator credentials";
            tokenReceived := VNull;
            response :=
              VObj [("error",
                     VStr "Cannot convert object to primitive value")];
            statusCode := 500;
            timestamp := 1700000000000 |} ]
  /\ fetches (runTrace shadowingTokenWorld exampleConfig initialState)
     = [ (tokenUrl, tokenRequest exampleConfig "coord-1" "s1") ].
Proof.
  assert (Hcase : selectedCase initialState <> NoAuth) by discriminate.
  destruct (dispatch_failure_drops_the_token garbledGateway exampleConfig
              initialState (VStr "T") "Unexpected token '<'"
              eq_refl Hcase eq_refl eq_refl) as (H1 & _).
  destruct (dispatch_failure_drops_the_token shadowingTokenWorld
              exampleConfig initialState (VObj [("toString", VNum "1")])
              "Cannot convert object to primitive value"
              eq_refl Hcase eq_refl eq_refl) as (H2 & H3 & _).
  split; [exact H1|]. split; [exact H2|].
  exact (proj2 (H3 eq_refl eq_refl)).
Defined.

(** X10. An HTTP error from the gateway is not a failure of the run:
    when authentication succeeded, the chat request was built and the
    gateway's answer to it parses, the record goes through the success
    path with the token, the gateway's own status (a 403 or a 500 as well
    as a 200) and the parsed body; the run's only events are the two
    requests, nothing being written to the console. *)
Theorem gateway_error_status_is_recorded_as_is
    w config st token init r data :
  isConfigValid config = true ->
  selectedCase st <> NoAuth ->
  authResult w config (agentId (authenticatesWith config st))
    (agentSecret (authenticatesWith config st)) = Normal token ->
  snd (sendChatRequest w config token (claims config st) st)
    = extend st [EvFetch "/api/chat" init] ->
  fetch w "/api/chat" init = Normal r ->
  json r = Normal data ->
  results (after (runSimulation w config) st)
  = {| caseType := selectedCase st;
       agentType := claims config st;
       authUsed := match selectedCase st with
                   | WrongAgent => "Support-Coordinator credentials"
                   | _ => selectedAgent st +:+ " credentials"
                   end;
       tokenReceived := token;
       response := data;
       statusCode := status r;
       timestamp := now w |} :: results st
  /\ runTrace w config st
     = [ EvFetch "/api/auth/agent-token"
           (tokenRequest config (agentId (authenticatesWith config st))
              (agentSecret (authenticatesWith config st)));
         EvFetch "/api/chat" init ].
Proof.
  intros Hv Hcase Hauth Hsent Hf Hj.
  apply sendChatRequest_sent in Hsent.
  pose proof (chatOutcome_answered _ _ _ _ _ _ _ Hsent Hf Hj) as Hchat.
  split.
  - rewrite runSimulation_valid by done. cbn. f_equal.
    rewrite recorded_pipeline by done. by rewrite Hauth, Hchat.
  - rewrite runTrace_valid by done.
    unfold authenticatesWith, claims in *.
    destruct (selectedCase st); [| |done].
    + rewrite caseTrace_correct. unfold pipelineTrace, chatTrace.
      by rewrite Hauth, Hsent.
    + rewrite caseTrace_wrong. unfold pipelineTrace, chatTrace.
      change (authResult w config (agentId (coordinatorAgent config))
                (agentSecret (coordinatorAgent config)) = Normal token)
        in Hauth.
      change (chatRequest w config token "Technical-Specialist"
              = Normal init) in Hsent.
      by rewrite Hauth, Hsent.
Qed.

Lemma gateway_error_status_is_recorded_as_is_witness :
  results (after (runSimulation failingGateway exampleConfig) initialState)
  = [ {| caseType := CorrectAgent;
         agentType := "Support-Coordinator";
         authUsed := "Support-Coordinator credentials";
         tokenReceived := VStr "T";
         response := VObj [("error", VStr "upstream down")];
         statusCode := 500;
         timestamp := 1700000000000 |} ].
Proof.
  assert (Hcase : selectedCase initialState <> NoAuth) by discriminate.
  destruct (gateway_error_status_is_recorded_as_is failingGateway
              exampleConfig initialState (VStr "T")
              (chatInit {[ "Content-Type" := "application/json";
                           "x-agent-type" := "Support-Coordinator";
                           "x-target-url" := "https://gw.example/chat";
                           "Authorization" := "Bearer T" ]}
                        "Support-Coordinator")
              {| status := 500;
                 json := Normal (VObj [("error", VStr "upstream down")]) |}
              (VObj [("error", VStr "upstream down")])
              eq_refl Hcase eq_refl eq_refl eq_refl eq_refl) as [H _].
  rewrite H. reflexivity.
Defined.

(** X11. The bookkeeping of a run with a complete configuration, whether
    its pipeline returned or threw and whatever [isLoading] was when the
    handler was entered (the handler itself does not look at it): the
    loading flag ends up [false], the expanded row is row 0 and row 0 is the
    record just stored, every older record has moved down by one, and the
    selection is untouched. *)
Theorem runSimulation_bookkeeping w config st :
  isConfigValid config = true ->
  isLoading (after (runSimulation w config) st) = false
  /\ expandedResult (after (runSimulation w config) st) = Some 0%nat
  /\ results (after (runSimulation w config) st) !! 0%nat
     = Some (recorded w config st)
  /\ (forall i,
        results (after (runSimulation w config) st) !! S i
        = results st !! i)
  /\ selectedCase (after (runSimulation w config) st) = selectedCase st
  /\ selectedAgent (after (runSimulation w config) st) = selectedAgent st
  /\ fst (runSimulation w config st) = Normal tt.
Proof.
  intros Hv. rewrite runSimulation_valid by done. cbn.
  do 6 (split; [done|]).
  unfold runSimulation. rewrite Hv. cbn.
  unfold Js.try_finally, Js.try_catch, Js.bind at 1 2.
  unfold setIsLoading at 1. rewrite (emits_runCase w config).
  by destruct (caseResult w config (selectedCase st) (selectedAgent st)).
Qed.

Lemma runSimulation_bookkeeping_witness :
  isLoading (after (runSimulation offline exampleConfig)
               (after (setIsLoading true) initialState)) = false
  /\ expandedResult (after (runSimulation offline exampleConfig)
                       (after (setIsLoading true) initialState))
     = Some 0%nat
  /\ fst (runSimulation offline exampleConfig
            (after (setIsLoading true) initialState)) = Normal tt.
Proof.
  destruct (runSimulation_bookkeeping offline exampleConfig
              (after (setIsLoading true) initialState) eq_refl)
    as (H1 & H2 & _ & _ & _ & _ & H3).
  split; [exact H1|]. split; [exact H2 | exact H3].
Defined.

Lemma recorded_noAuth w config st :
  selectedCase st = NoAuth ->
  recorded w config st
  = match chatOutcome w config VNull (selectedAgent st) with
    | Throw e => errorResult w NoAuth (selectedAgent st) e
    | Normal reply =>
        {| caseType := NoAuth; agentType := selectedAgent st;
           authUsed := "No authentication"; tokenReceived := VNull;
           response := fst reply; statusCode := snd reply;
           timestamp := now w |}
    end.
Proof.
  intros Hcase. unfold recorded. rewrite Hcase, caseResult_noAuth.
  by destruct (chatOutcome _ _ _ _).
Qed.

(** X12. What a record says about the run does not depend on how the
    run went, except in the impersonation case: the record of every run
    carries the selected case and the time of the run, and in the
    matched-identity and unauthenticated cases its [agentType] is the
    selected agent and its [authUsed] is that agent's name followed by
    [" credentials"], respectively ["No authentication"], on the success
    path and on the failure path alike. *)
Theorem record_labels_follow_selection w config st :
  caseType (recorded w config st) = selectedCase st
  /\ timestamp (recorded w config st) = now w
  /\ (selectedCase st <> WrongAgent ->
      agentType (recorded w config st) = selectedAgent st
      /\ authUsed (recorded w config st)
         = match selectedCase st with
           | NoAuth => "No authentication"
           | _ => selectedAgent st +:+ " credentials"
           end).
Proof.
  destruct (selectedCase st) eqn:Hcase.
  - rewrite recorded_pipeline by congruence. rewrite Hcase.
    unfold claims. rewrite Hcase.
    destruct (authResult _ _ _ _) as [token|e]; [|done].
    by destruct (chatOutcome _ _ _ _).
  - rewrite recorded_pipeline by congruence. rewrite Hcase.
    destruct (authResult _ _ _ _) as [token|e]; [|done].
    by destruct (chatOutcome _ _ _ _).
  - rewrite recorded_noAuth by done.
    by destruct (chatOutcome _ _ _ _).
Qed.

Lemma record_labels_follow_selection_witness :
  agentType (recorded offline exampleConfig
               (matching "Technical-Specialist")) = "Technical-Specialist"
  /\ authUsed (recorded offline exampleConfig
                 (matching "Technical-Specialist"))
     = "Technical-Specialist credentials".
Proof.
  destruct (record_labels_follow_selection offline exampleConfig
              (matching "Technical-Specialist")) as (_ & _ & H).
  apply H. discriminate.
Defined.

Lemma recorded_coherent w config st : recordCoherent (recorded w config st).
Proof.
  unfold recordCoherent.
  destruct (selectedCase st) eqn:Hcase.
  - rewrite recorded_pipeline by congruence. rewrite Hcase.
    unfold claims. rewrite Hcase.
    destruct (authResult _ _ _ _) as [token|e]; [|done].
    by destruct (chatOutcome _ _ _ _).
  - rewrite recorded_pipeline by congruence. rewrite Hcase.
    unfold claims. rewrite Hcase.
    destruct (authResult _ _ _ _) as [token|e]; cbn; [|by right].
    destruct (chatOutcome _ _ _ _); cbn; [by left | by right].
  - rewrite recorded_noAuth by done.
    by destruct (chatOutcome _ _ _ _).
Qed.

Lemma handle_results a st :
  results (after (handle a) st) = results st
  \/ results (after (handle a) st) = []
  \/ exists w config,
       results (after (handle a) st) = recorded w config st :: results st.
Proof.
  destruct a as [c|s|w config| |i]; cbn [handle]; try by left.
  - destruct (isConfigValid config) eqn:Hv.
    + right; right. exists w, config. by rewrite runSimulation_valid.
    + left. unfold after. by rewrite runSimulation_invalid.
  - by (right; left).
Qed.

(** X13. Every record the history ever holds is coherent with its case,
    whatever handlers are run in whatever order: an unauthenticated record
    has a [null] token and says ["No authentication"]; a matched-identity
    record says it used the credentials of the very agent it names; an
    impersonation record either names the fixed pair (specialist claimed,
    coordinator's credentials) or is a synthesized failure with status 500
    and no token. *)
Theorem history_records_are_coherent acts st :
  Forall recordCoherent (results st) ->
  Forall recordCoherent (results (afterAll acts st)).
Proof.
  revert st. induction acts as [|a acts IH]; intros st Hst; [done|].
  cbn [afterAll]. apply IH.
  destruct (handle_results a st) as [-> | [-> | (w & config & ->)]].
  - done.
  - constructor.
  - constructor; [apply recorded_coherent | done].
Qed.

Lemma history_records_are_coherent_witness :
  Forall recordCoherent
    (results (afterAll [ Run refusingGateway exampleConfig;
                         SelectCase WrongAgent;
                         Run explainedRefusal exampleConfig;
                         SelectCase NoAuth;
                         Run offline exampleConfig ] initialState)).
Proof.
  apply history_records_are_coherent. constructor.
Defined.

(** X14. [getAgentCredentials] has no "unknown agent" outcome: every
    name other than ["Support-Coordinator"], spelled exactly so, resolves
    to the specialist's pair.  A matched-identity run started with such a
    name therefore posts the specialist's identifier and secret to the
    token route, and the chat request it goes on to send, if any, claims
    the name as given. *)
Theorem unknown_agent_resolves_to_specialist w config st :
  selectedAgent st <> "Support-Coordinator" ->
  getAgentCredentials config (selectedAgent st) = expertAgent config
  /\ (isConfigValid config = true ->
      selectedCase st = CorrectAgent ->
      exists rest,
        fetches (runTrace w config st)
        = ("/api/auth/agent-token",
           {| method := "POST";
              headers := {[ "Content-Type" := "application/json" ]};
              body := VObj
                [ ("orgName", VStr (orgName config));
                  ("clientId", VStr (clientId config));
                  ("agentId", VStr (agentId (expertAgent config)));
                  ("agentSecret",
                   VStr (agentSecret (expertAgent config))) ] |})
          :: rest
        /\ (rest = []
            \/ exists init,
                 rest = [("/api/chat", init)]
                 /\ headers init !! "x-agent-type"
                    = Some (selectedAgent st))
        /\ (forall token,
              authResult w config (agentId (expertAgent config))
                (agentSecret (expertAgent config)) = Normal token ->
              truthy token = false \/ is_Some (toString token) ->
              rest <> [])).
Proof.
  intros Hne.
  assert (Hcred : getAgentCredentials config (selectedAgent st)
                  = expertAgent config).
  { unfold getAgentCredentials.
    destruct (String.eqb (selectedAgent st) "Support-Coordinator") eqn:E.
    - by apply String.eqb_eq in E.
    - by destruct (expertAgent config). }
  split; [exact Hcred|].
  intros Hv Hcase. rewrite fetches_runTrace, Hv.
  unfold authenticatesWith, claims. rewrite Hcase, Hcred.
  eexists. split; [reflexivity|].
  destruct (authResult _ _ _ _) as [token|e].
  - destruct (chatRequest w config token (selectedAgent st))
      as [init|e] eqn:Hreq.
    + split.
      * right. exists init. split; [done|].
        by destruct (chatRequest_built _ _ _ _ _ Hreq) as (_ & _ & H & _).
      * done.
    + split; [by left|]. intros token' [= <-] Htok.
      destruct (truthy token) eqn:Ht.
      * destruct Htok as [Hf | [text Hs]]; [done|].
        by rewrite (chatRequest_convertible _ _ _ _ text) in Hreq.
      * by rewrite chatRequest_falsy in Hreq.
  - split; [by left|]. done.
Qed.

Lemma unknown_agent_resolves_to_specialist_witness :
  getAgentCredentials exampleConfig "support-coordinator"
    = {| agentId := "spec-1"; agentSecret := "s2" |}
  /\ exists rest,
       fetches (runTrace refusingGateway exampleConfig
                  (matching "support-coordinator"))
       = ("/api/auth/agent-token",
          {| method := "POST";
             headers := {[ "Content-Type" := "application/json" ]};
             body := VObj [ ("orgName", VStr "acme");
                            ("clientId", VStr "c1");
                            ("agentId", VStr "spec-1");
                            ("agentSecret", VStr "s2") ] |})
         :: rest
       /\ (rest = []
           \/ exists init,
                rest = [("/api/chat", init)]
                /\ headers init !! "x-agent-type"
                   = Some "support-coordinator").
Proof.
  assert (Hne : selectedAgent (matching "support-coordinator")
                <> "Support-Coordinator") by discriminate.
  destruct (unknown_agent_resolves_to_specialist refusingGateway
              exampleConfig (matching "support-coordinator") Hne)
    as [H1 H2].
  split; [exact H1|].
  destruct (H2 eq_refl eq_refl) as (rest & Hr & Hc & _).
  exists rest. split; [exact Hr | exact Hc].
Defined.

(** ** The component driven through its controls *)

Lemma uiInvariant_spec st :
  uiInvariant st = true
  <-> isLoading st = false
      /\ selectedAgent st ∈ agentOptions
      /\ (forall i, expandedResult st = Some i ->
                    (i < length (results st))%nat)
      /\ forallb (fun ev => negb (isAlert ev)) (trace st) = true.
Proof.
  unfold uiInvariant.
  rewrite !andb_true_iff, negb_true_iff, bool_decide_eq_true.
  split.
  - intros [[[H1 H2] H3] H4]. repeat split; try done.
    intros i Hi. rewrite Hi in H3. by apply bool_decide_eq_true in H3.
  - intros (H1 & H2 & H3 & H4). repeat split; try done.
    destruct (expandedResult st) as [i|]; [|done].
    apply bool_decide_eq_true. by apply H3.
Qed.

Lemma caseTrace_no_alert w config c agent :
  forallb (fun ev => negb (isAlert ev)) (caseTrace w config c agent) = true.
Proof.
  destruct c.
  - rewrite caseTrace_correct. unfold pipelineTrace, chatTrace.
    destruct (authResult _ _ _ _); [|done].
    by destruct (chatRequest _ _ _ _).
  - rewrite caseTrace_wrong. unfold pipelineTrace, chatTrace.
    destruct (authResult _ _ _ _); [|done].
    by destruct (chatRequest _ _ _ _).
  - by rewrite caseTrace_noAuth.
Qed.

Lemma uiInvariant_step a st :
  uiInvariant st = true -> enabled a st = true ->
  uiInvariant (after (handle a) st) = true.
Proof.
  rewrite !uiInvariant_spec. intros (Hl & Hs & He & Ht) Hen.
  destruct a as [c|s|w config| |i]; cbn [handle].
  - done.
  - cbn in Hen. apply andb_true_iff in Hen as [_ Hen].
    apply bool_decide_eq_true in Hen. done.
  - cbn in Hen. unfold runDisabled in Hen.
    rewrite Hl in Hen. cbn in Hen. rewrite negb_involutive in Hen.
    rewrite runSimulation_valid by done. cbn.
    repeat split; try done.
    + intros i [= <-]. lia.
    + rewrite forallb_app, Ht. apply caseTrace_no_alert.
  - done.
  - cbn in Hen. apply bool_decide_eq_true in Hen. cbn.
    repeat split; try done.
    intros j. case_bool_decide; [done|]. by intros [= <-].
Qed.

(** X15. As long as the component is driven through the controls it
    renders (a disabled run button, an agent select with two options shown
    for two of the cases, "Clear All" only over a non-empty history, one
    header per result), handlers running one after the other to completion,
    the following hold after every handler: the loading
    flag is down, the selected agent is one of the two roles, the expanded
    row exists, and the "configure first" alert has never been raised, so
    every run has stored a record. *)
Theorem ui_invariant_is_kept acts st :
  uiInvariant st = true ->
  enabledAll acts st = true ->
  uiInvariant (afterAll acts st) = true
  /\ (selectedAgent (afterAll acts st) = "Support-Coordinator"
      \/ selectedAgent (afterAll acts st) = "Technical-Specialist")
  /\ (forall i, expandedResult (afterAll acts st) = Some i ->
                is_Some (results (afterAll acts st) !! i))
  /\ (forall msg, EvAlert msg ∉ trace (afterAll acts st)).
Proof.
  revert st. induction acts as [|a acts IH]; intros st Hinv Hen.
  - cbn [afterAll]. split; [done|].
    apply uiInvariant_spec in Hinv as (_ & Hs & He & Ht).
    split; [|split].
    + unfold agentOptions in Hs.
      apply elem_of_cons in Hs as [-> | Hs]; [by left|].
      apply list_elem_of_singleton in Hs as ->. by right.
    + intros i Hi. apply lookup_lt_is_Some. by apply He.
    + intros msg Hin.
      rewrite forallb_forall in Ht.
      apply list_elem_of_In in Hin. by specialize (Ht _ Hin).
  - cbn in Hen. apply andb_true_iff in Hen as [Ha Hrest].
    cbn [afterAll]. apply IH; [|done]. by apply uiInvariant_step.
Qed.

Lemma ui_invariant_is_kept_witness :
  uiInvariant
    (afterAll [ Run offline exampleConfig; Toggle 0;
                SelectCase NoAuth; SelectAgent "Technical-Specialist";
                Run grantingWorld exampleConfig; Clear ] initialState)
  = true.
Proof.
  exact (proj1 (ui_invariant_is_kept
                  [ Run offline exampleConfig; Toggle 0;
                    SelectCase NoAuth; SelectAgent "Technical-Specialist";
                    Run grantingWorld exampleConfig; Clear ]
                  initialState eq_refl eq_refl)).
Defined.

(** X16. The dot of a result header and its badge never disagree: the
    dot is green exactly when the badge says ["Success"], yellow exactly
    when it says ["Client Error"], red exactly when it says ["Error"]. *)
Theorem statusDot_agrees_with_badge (statusCode : Z) :
  (statusDot statusCode = "bg-green-500"
   <-> label (getStatusBadge statusCode) = "Success")
  /\ (statusDot statusCode = "bg-yellow-500"
      <-> label (getStatusBadge statusCode) = "Client Error")
  /\ (statusDot statusCode = "bg-red-500"
      <-> label (getStatusBadge statusCode) = "Error").
Proof.
  unfold statusDot, getStatusBadge.
  destruct ((200 <=? statusCode)%Z && (statusCode <? 300)%Z),
           ((400 <=? statusCode)%Z && (statusCode <? 500)%Z); cbn;
    repeat split; done.
Qed.

(** X17. Clicking a result header: it collapses the row when that row is
    the expanded one and expands it otherwise, so that at most the clicked
    row is shown afterwards; it touches neither the history nor the
    network.  Clicking the same header twice gives back the expansion
    there was exactly when no other row was expanded; otherwise it leaves
    every row collapsed. *)
Theorem toggleExpanded_behaviour index st :
  expandedResult (after (toggleExpanded index) st)
    = (if detailsShown st index then None else Some index)
  /\ (forall j, detailsShown (after (toggleExpanded index) st) j = true ->
                j = index /\ detailsShown st index = false)
  /\ results (after (toggleExpanded index) st) = results st
  /\ trace (after (toggleExpanded index) st) = trace st
  /\ expandedResult
       (after (toggleExpanded index) (after (toggleExpanded index) st))
     = match expandedResult st with
       | None => None
       | Some j => if bool_decide (j = index) then Some index else None
       end.
Proof.
  unfold toggleExpanded, detailsShown, after, setExpandedResult; cbn.
  split; [done|]. split; [|split; [done|split; [done|]]].
  - intros j. repeat case_bool_decide; naive_solver.
  - destruct (expandedResult st) as [j|]; repeat case_bool_decide;
      naive_solver.
Qed.

(** X17, on the row of a run that has just completed: the row is
    expanded, one click collapses it and a second click expands it
    again. *)
Lemma toggleExpanded_behaviour_witness :
  expandedResult
    (after (toggleExpanded 0)
       (after (runSimulation offline exampleConfig) initialState)) = None
  /\ expandedResult
       (after (toggleExpanded 0)
          (after (toggleExpanded 0)
             (after (runSimulation offline exampleConfig) initialState)))
     = Some 0%nat.
Proof.
  destruct (toggleExpanded_behaviour 0
              (after (runSimulation offline exampleConfig) initialState))
    as (H1 & _ & _ & _ & H2).
  split; [rewrite H1 | rewrite H2]; reflexivity.
Defined.

Lemma chatOutcome_returned w config token agentType reply :
  chatOutcome w config token agentType = Normal reply ->
  truthy token = true -> is_Some (toString token).
Proof.
  unfold chatOutcome.
  destruct (chatRequest w config token agentType) as [init|e] eqn:Hreq;
    [|done].
  intros _. by destruct (chatRequest_built _ _ _ _ _ Hreq) as (_&_&_&_&_&H).
Qed.

(** X18. The address of the "Decode Token" link of the record of a run
    can always be computed, its template literal never throwing on the
    token of a stored record, and the link is there only for a token that
    was issued and then dispatched with an answer: the case is an authenticated one, the
    authenticator returned a truthy token, the dispatcher returned, and the
    address is the jwt.io prefix followed by the token converted to a
    string, unencoded.  In particular no record of the unauthenticated
    case and no synthesized failure shows it. *)
Theorem decodeHref_only_for_a_dispatched_token w config st :
  decodeHref (recorded w config st) <> RenderThrows
  /\ (forall href,
        decodeHref (recorded w config st) = Shown href ->
        selectedCase st <> NoAuth
        /\ exists token reply text,
             authResult w config (agentId (authenticatesWith config st))
               (agentSecret (authenticatesWith config st)) = Normal token
             /\ chatOutcome w config token (claims config st)
                = Normal reply
             /\ tokenReceived (recorded w config st) = token
             /\ truthy token = true
             /\ toString token = Some text
             /\ href = "https://jwt.io/#id_token=" +:+ text).
Proof.
  unfold decodeHref.
  destruct (selectedCase st) eqn:Hcase.
  3: { rewrite recorded_noAuth by done.
       by destruct (chatOutcome _ _ _ _). }
  all: rewrite recorded_pipeline by congruence.
  all: destruct (authResult _ _ _ _) as [token|e] eqn:Ha; [|done].
  all: destruct (chatOutcome _ _ _ _) as [reply|e] eqn:Hc; [|done].
  all: cbn; destruct (truthy token) eqn:Ht; [|done].
  all: destruct (chatOutcome_returned _ _ _ _ _ Hc Ht) as [text Hs].
  all: rewrite Hs; split; [done|].
  all: intros href [= <-]; split; [done|]; by exists token, reply, text.
Qed.

(** X18, for a run whose token is the number 1e21. *)
Lemma decodeHref_only_for_a_dispatched_token_witness :
  decodeHref (recorded numericTokenWorld exampleConfig initialState)
    = Shown "https://jwt.io/#id_token=1e+21"
  /\ selectedCase initialState <> NoAuth.
Proof.
  split; [reflexivity|].
  exact (proj1 (proj2 (decodeHref_only_for_a_dispatched_token
                         numericTokenWorld exampleConfig initialState)
                  "https://jwt.io/#id_token=1e+21" eq_refl)).
Defined.


